(** * Flight path calculator (src/lib/flightCalculator.ts)

    A shallow embedding of the disc-golf flight path engine and the proofs
    of its laws.  The TypeScript source computes with JavaScript [number]s,
    that is IEEE-754 binary64 values.  The engine is written once, over an
    interface of the arithmetic operators it uses, and read at two
    instances:

    - [Binary64]: the operators as the JavaScript engine executes them
      (round to nearest even, signed zeros, infinities and NaN), built on
      the Standard Library's executable specification of IEEE arithmetic;
    - [Exact]: the same formulas over the rationals, without rounding,
      which is where the algebraic laws of the design live. *)

From Stdlib Require Import ZArith QArith Qminmax Qabs Lqa Lia Bool.
From Stdlib Require Import Ascii String List SpecFloat DecimalString.
Import ListNotations.

Set Implicit Arguments.

(** ** The arithmetic the source uses *)

Module JsNum.

(** The operators that occur in [generatePath]: numeric literals,
    [+ - * /], unary minus and [Math.min]. *)
Class Arith (num : Type) : Type := {
  lit : Z -> num;
  add : num -> num -> num;
  sub : num -> num -> num;
  mul : num -> num -> num;
  div : num -> num -> num;
  neg : num -> num;
  min : num -> num -> num
}.

(** A decimal literal such as [0.4] is the quotient [4 / 10]: both
    operands are exact and the division is correctly rounded, so at
    binary64 this is the double nearest to the decimal, as the
    JavaScript parser produces it. *)
Definition decimal {num} `{Arith num} (m : Z) (d : positive) : num :=
  div (lit m) (lit (Zpos d)).

End JsNum.
Import JsNum.

Declare Scope js_scope.
Delimit Scope js_scope with js.
Infix "+" := add : js_scope.
Infix "-" := sub : js_scope.
Infix "*" := mul : js_scope.
Infix "/" := div : js_scope.
Notation "- x" := (neg x) : js_scope.

(** ** IEEE-754 binary64, the [number] type of JavaScript *)

Module Binary64.

Definition prec : Z := 53.
Definition emax : Z := 1024.

Definition float : Type := spec_float.

Definition NaN : float := S754_nan.

Definition of_Z (z : Z) : float := binary_normalize prec emax z 0 false.

Definition fadd : float -> float -> float := SFadd prec emax.
Definition fsub : float -> float -> float := SFsub prec emax.
Definition fmul : float -> float -> float := SFmul prec emax.
Definition fdiv : float -> float -> float := SFdiv prec emax.
Definition fneg : float -> float := SFopp.

(** [Math.min] on two arguments: NaN when either argument is NaN, and
    [-0] is smaller than [+0]. *)
Definition Math_min (x y : float) : float :=
  match SFcompare x y with
  | None => NaN
  | Some Lt => x
  | Some Gt => y
  | Some Eq => match x with S754_zero true => x | _ => y end
  end.

(** The comparison operators [<] and [<=], and [Math.abs]. *)
Definition ltb : float -> float -> bool := SFltb.
Definition leb : float -> float -> bool := SFleb.
Definition fabs : float -> float := SFabs.

Definition is_nan (x : float) : bool :=
  match x with S754_nan => true | _ => false end.

Definition is_finite (x : float) : bool :=
  match x with S754_zero _ | S754_finite _ _ _ => true | _ => false end.

(** A rendering of a double for running the engine on concrete inputs:
    mantissa and binary exponent in decimal digits.  It stands in for
    [Number.prototype.toString], whose shortest-decimal algorithm no
    statement below depends on. *)
Definition digits (z : Z) : string := NilZero.string_of_int (Z.to_int z).

Definition to_string (x : float) : string :=
  match x with
  | S754_nan => "NaN"
  | S754_infinity false => "Infinity"
  | S754_infinity true => "-Infinity"
  | S754_zero _ => "0"
  | S754_finite s m e =>
      ((if s then "-" else "") ++ digits (Zpos m) ++ "p" ++ digits e)%string
  end.

#[export] Instance arith : Arith float := {
  lit := of_Z;
  add := fadd;
  sub := fsub;
  mul := fmul;
  div := fdiv;
  neg := fneg;
  min := Math_min
}.

End Binary64.

(** ** Exact rational arithmetic *)

Module Exact.

#[export] Instance arith : Arith Q := {
  lit := inject_Z;
  add := Qplus;
  sub := Qminus;
  mul := Qmult;
  div := Qdiv;
  neg := Qopp;
  min := Qmin
}.

End Exact.

(** ** The engine *)

Inductive ThrowType : Type := rhbh | rhfh | lhbh | lhfh.

Inductive ReleaseAngle : Type := hyzer | flat | anhyzer.

Section FlightCalculator.

Context {num : Type} `{Arith num}.

(** [Number.prototype.toString], which the template literal of
    [generatePath] applies to each interpolated coordinate.  It is a
    builtin of the language, not code of the repository. *)
Variable toString : num -> string.

Local Open Scope js_scope.

Record FlightNumbers : Type := {
  speed : num;
  glide : num;
  turn : num;
  fade : num
}.

(** The fields are named after the release angles in the source; here the
    release angles themselves carry those names. *)
Record FlightPaths : Type := {
  hyzerPath : string;
  flatPath : string;
  anhyzerPath : string
}.

Record CanvasConfig : Type := {
  width : num;
  height : num;
  startX : num;
  startY : num;
  maxDistance : num
}.

Definition DEFAULT_CONFIG : CanvasConfig := {|
  width := lit 200;
  height := lit 300;
  startX := lit 100;
  startY := lit 280;
  maxDistance := lit 400
|}.

(** *** The local constants of [generatePath], in source order *)

Definition availableHeight (config : CanvasConfig) : num :=
  startY config - lit 20.

Definition pixelsPerFoot (config : CanvasConfig) : num :=
  availableHeight config / maxDistance config.

Definition baseDistance (fn : FlightNumbers) : num :=
  lit 30 + speed fn * lit 28.

Definition glideBonus (fn : FlightNumbers) : num :=
  glide fn * lit 5.

Definition estimatedDistance (fn : FlightNumbers) (config : CanvasConfig) : num :=
  min (baseDistance fn + glideBonus fn) (maxDistance config).

Definition flightLength (fn : FlightNumbers) (config : CanvasConfig) : num :=
  estimatedDistance fn config * pixelsPerFoot config.

Definition effectScale (fn : FlightNumbers) (config : CanvasConfig) : num :=
  flightLength fn config / lit 250.

(** [let turnEffect = turn * 10 * effectScale] and
    [let fadeEffect = fade * 15 * effectScale], before the [switch]. *)
Definition rawTurnEffect (fn : FlightNumbers) (config : CanvasConfig) : num :=
  turn fn * lit 10 * effectScale fn config.

Definition rawFadeEffect (fn : FlightNumbers) (config : CanvasConfig) : num :=
  fade fn * lit 15 * effectScale fn config.

(** The [switch (releaseAngle)]: the compound assignments of each case. *)
Definition angledTurnEffect (releaseAngle : ReleaseAngle) (t : num) : num :=
  match releaseAngle with
  | hyzer => t * decimal 5 10
  | anhyzer => t * decimal 16 10
  | flat => t
  end.

Definition angledFadeEffect (releaseAngle : ReleaseAngle) (f : num) : num :=
  match releaseAngle with
  | hyzer => f * decimal 14 10
  | anhyzer => f * decimal 6 10
  | flat => f
  end.

(** [if (mirror) { turnEffect = -turnEffect; fadeEffect = -fadeEffect }] *)
Definition mirrored (mirror : bool) (e : num) : num :=
  if mirror then - e else e.

(** The values of [turnEffect] and [fadeEffect] when the geometry is
    assembled. *)
Definition turnEffect (fn : FlightNumbers) (releaseAngle : ReleaseAngle)
           (mirror : bool) (config : CanvasConfig) : num :=
  mirrored mirror (angledTurnEffect releaseAngle (rawTurnEffect fn config)).

Definition fadeEffect (fn : FlightNumbers) (releaseAngle : ReleaseAngle)
           (mirror : bool) (config : CanvasConfig) : num :=
  mirrored mirror (angledFadeEffect releaseAngle (rawFadeEffect fn config)).

Definition arcHeight (fn : FlightNumbers) (config : CanvasConfig) : num :=
  glide fn * lit 6 * effectScale fn config.

(** The eight numbers interpolated into the path string: start point,
    two control points and end point of the cubic Bezier curve. *)
Record Curve : Type := {
  originX : num;
  originY : num;
  cp1X : num;
  cp1Y : num;
  cp2X : num;
  cp2Y : num;
  endX : num;
  endY : num
}.

Definition curve (fn : FlightNumbers) (releaseAngle : ReleaseAngle)
           (mirror : bool) (config : CanvasConfig) : Curve :=
  let turnEffect := turnEffect fn releaseAngle mirror config in
  let fadeEffect := fadeEffect fn releaseAngle mirror config in
  let flightLength := flightLength fn config in
  let endY := startY config - flightLength in
  {| originX := startX config;
     originY := startY config;
     cp1X := startX config + turnEffect;
     cp1Y := startY config - flightLength * decimal 4 10;
     cp2X := startX config + turnEffect * decimal 5 10 - fadeEffect * decimal 3 10;
     cp2Y := endY + arcHeight fn config;
     endX := startX config - fadeEffect;
     endY := endY |}.

(** The template literal
    [`M ${startX} ${startY} C ${cp1X} ${cp1Y}, ${cp2X} ${cp2Y}, ${endX} ${endY}`]. *)
Definition svgPath (c : Curve) : string :=
  ("M " ++ toString (originX c) ++ " " ++ toString (originY c)
    ++ " C " ++ toString (cp1X c) ++ " " ++ toString (cp1Y c)
    ++ ", " ++ toString (cp2X c) ++ " " ++ toString (cp2Y c)
    ++ ", " ++ toString (endX c) ++ " " ++ toString (endY c))%string.

Definition generatePath (flightNumbers : FlightNumbers)
           (releaseAngle : ReleaseAngle) (mirror : bool)
           (config : CanvasConfig) : string :=
  svgPath (curve flightNumbers releaseAngle mirror config).

(** [throwType === 'rhfh' || throwType === 'lhbh'] *)
Definition shouldMirror (throwType : ThrowType) : bool :=
  match throwType with
  | rhfh | lhbh => true
  | rhbh | lhfh => false
  end.

(** The third parameter has a default value: an omitted argument is
    [None], and the body then runs with [DEFAULT_CONFIG]. *)
Definition calculateFlightPath (flightNumbers : FlightNumbers)
           (throwType : ThrowType) (config : option CanvasConfig) : FlightPaths :=
  let config := match config with Some c => c | None => DEFAULT_CONFIG end in
  let shouldMirror := shouldMirror throwType in
  {| hyzerPath := generatePath flightNumbers hyzer shouldMirror config;
     flatPath := generatePath flightNumbers flat shouldMirror config;
     anhyzerPath := generatePath flightNumbers anhyzer shouldMirror config |}.

(** *** Notions the laws are stated with *)

(** The curve behind each of the three strings of a call. *)
Definition curveOf (flightNumbers : FlightNumbers) (throwType : ThrowType)
           (config : option CanvasConfig) (releaseAngle : ReleaseAngle) : Curve :=
  curve flightNumbers releaseAngle (shouldMirror throwType)
        match config with Some c => c | None => DEFAULT_CONFIG end.

(** A path string as the renderer expects it: the template filled with the
    coordinates of a curve, hence starting with the move-to command. *)
Definition pathOf (c : Curve) (s : string) : Prop :=
  s = svgPath c /\ prefix "M " s = true.

(** Reflection of an abscissa about the vertical line through [x0]. *)
Definition reflectAbout (x0 x : num) : num := x0 - (x - x0).

(** Flight numbers with [speed] increased by one. *)
Definition oneFaster (fn : FlightNumbers) : FlightNumbers :=
  {| speed := speed fn + lit 1; glide := glide fn; turn := turn fn; fade := fade fn |}.

(** Integer flight numbers, as on a disc. *)
Definition flightNumbersOf (s g t f : Z) : FlightNumbers :=
  {| speed := lit s; glide := lit g; turn := lit t; fade := lit f |}.

(** The discs of src/lib/flightCalculator.test.ts. *)
Definition standardFlightNumbers : FlightNumbers := flightNumbersOf 12 5 (-1) 3.

Definition distanceDriver : FlightNumbers := flightNumbersOf 14 6 (-2) 3.

(** The default canvas with another origin height and scale. *)
Definition canvas (y0 scale : Z) : CanvasConfig :=
  {| width := lit 200; height := lit 300;
     startX := lit 100; startY := lit y0; maxDistance := lit scale |}.

End FlightCalculator.

Arguments FlightNumbers num : clear implicits.
Arguments CanvasConfig num : clear implicits.
Arguments Curve num : clear implicits.

Unset Implicit Arguments.

Import Binary64 Exact.

(** The horizontal distance between a curve's end point and the throw
    origin, [|endX - startX|], over the rationals and over doubles. *)
Definition fadeOffsetQ (fn : FlightNumbers Q) (releaseAngle : ReleaseAngle)
           (mirror : bool) (config : CanvasConfig Q) : Q :=
  Qabs (endX (curve fn releaseAngle mirror config) - startX config).

Definition fadeOffset (fn : FlightNumbers float) (releaseAngle : ReleaseAngle)
           (mirror : bool) (config : CanvasConfig float) : float :=
  fabs (fsub (endX (curve fn releaseAngle mirror config)) (startX config)).

(** [|x - target| < tolerance], on doubles. *)
Definition within (tolerance target x : float) : bool :=
  ltb (fabs (fsub x target)) tolerance.

(** Flight numbers whose speed and glide are integers. *)
Definition disc (s g : Z) (t f : float) : FlightNumbers float :=
  {| speed := of_Z s; glide := of_Z g; turn := t; fade := f |}.

(** The integers [lo, lo + 1, ..., lo + n - 1]. *)
Fixpoint zrange (lo : Z) (n : nat) : list Z :=
  match n with
  | O => []
  | S k => lo :: zrange (lo + 1) k
  end.

(** The two properties checked over the normal range of flight numbers,
    on the default canvas. *)
Definition orderedAt (s g f : Z) (mirror : bool) : bool :=
  let fn := disc s g (of_Z 0) (of_Z f) in
  ltb (fadeOffset fn flat mirror DEFAULT_CONFIG) (fadeOffset fn hyzer mirror DEFAULT_CONFIG)
  && ltb (fadeOffset fn anhyzer mirror DEFAULT_CONFIG) (fadeOffset fn flat mirror DEFAULT_CONFIG).

Definition monotoneAt (s g : Z) : bool :=
  let fn := disc s g (of_Z 0) (of_Z 0) in
  leb (estimatedDistance fn DEFAULT_CONFIG) (estimatedDistance (oneFaster fn) DEFAULT_CONFIG)
  && leb (flightLength fn DEFAULT_CONFIG) (flightLength (oneFaster fn) DEFAULT_CONFIG).

(** ** Notions for the further laws *)

Section Variations.

Context {num : Type} `{Arith num}.

Local Open Scope js_scope.

(** Flight numbers with [glide] increased by one. *)
Definition oneMoreGlide (fn : FlightNumbers num) : FlightNumbers num :=
  {| speed := speed fn; glide := glide fn + lit 1; turn := turn fn; fade := fade fn |}.

(** Flight numbers with another turn, another fade. *)
Definition withTurn (t : num) (fn : FlightNumbers num) : FlightNumbers num :=
  {| speed := speed fn; glide := glide fn; turn := t; fade := fade fn |}.

Definition withFade (f : num) (fn : FlightNumbers num) : FlightNumbers num :=
  {| speed := speed fn; glide := glide fn; turn := turn fn; fade := f |}.


End Variations.

Definition is_zero (x : float) : bool :=
  match x with S754_zero _ => true | _ => false end.

(** The horizontal distance between the first control point and the throw
    origin, [|cp1X - startX|], over the rationals and over doubles. *)
Definition turnOffsetQ (fn : FlightNumbers Q) (releaseAngle : ReleaseAngle)
           (mirror : bool) (config : CanvasConfig Q) : Q :=
  Qabs (cp1X (curve fn releaseAngle mirror config) - startX config).

Definition turnOffset (fn : FlightNumbers float) (releaseAngle : ReleaseAngle)
           (mirror : bool) (config : CanvasConfig float) : float :=
  fabs (fsub (cp1X (curve fn releaseAngle mirror config)) (startX config)).


Definition glideMonotoneAt (s g : Z) : bool :=
  let fn := disc s g (of_Z 0) (of_Z 0) in
  leb (estimatedDistance fn DEFAULT_CONFIG) (estimatedDistance (oneMoreGlide fn) DEFAULT_CONFIG)
  && leb (flightLength fn DEFAULT_CONFIG) (flightLength (oneMoreGlide fn) DEFAULT_CONFIG).

(** The weights of the [switch (releaseAngle)], [None] for the flat release,
    which multiplies nothing. *)
Definition turnWeight (releaseAngle : ReleaseAngle) : option float :=
  match releaseAngle with
  | hyzer => Some (decimal 5 10)
  | flat => None
  | anhyzer => Some (decimal 16 10)
  end.

Definition fadeWeight (releaseAngle : ReleaseAngle) : option float :=
  match releaseAngle with
  | hyzer => Some (decimal 14 10)
  | flat => None
  | anhyzer => Some (decimal 6 10)
  end.

Definition weighted (w : option float) (x : float) : float :=
  match w with Some k => fmul x k | None => x end.

(** The turn offset on the default canvas as a function of the effect
    scale and the weight, and the ordering check on it: [half] and
    [sixteenTenths] are the weights of hyzer and anhyzer. *)
Definition turnOffsetFrom (scale : float) (wt : option float) (t : Z) (mirror : bool) : float :=
  fabs (fsub (fadd (of_Z 100)
                   (mirrored mirror (weighted wt (fmul (fmul (of_Z t) (of_Z 10)) scale))))
             (of_Z 100)).

Definition turnOrderedFrom (half sixteenTenths : float) (scale : float) (t : Z)
           (mirror : bool) : bool :=
  ltb (turnOffsetFrom scale (Some half) t mirror) (turnOffsetFrom scale None t mirror)
  && ltb (turnOffsetFrom scale None t mirror) (turnOffsetFrom scale (Some sixteenTenths) t mirror).

(** On the default canvas, as functions of the effect scale, the weight and
    a literal: the turn's share of the abscissas, [cp1X] and the left operand
    [startX + turnEffect * 0.5] of [cp2X]; the fade's share, [endX] and the
    right operand [fadeEffect * 0.3] of [cp2X]; and the three abscissas
    [(cp1X, cp2X, endX)] put together. *)
Definition turnSide (scale : float) (wt : option float) (half : float)
           (mirror : bool) (t : Z) : float * float :=
  let turnEffect := mirrored mirror (weighted wt (fmul (fmul (of_Z t) (of_Z 10)) scale)) in
  (fadd (of_Z 100) turnEffect, fadd (of_Z 100) (fmul turnEffect half)).

Definition fadeSide (scale : float) (wf : option float) (threeTenths : float)
           (mirror : bool) (f : Z) : float * float :=
  let fadeEffect := mirrored mirror (weighted wf (fmul (fmul (of_Z f) (of_Z 15)) scale)) in
  (fsub (of_Z 100) fadeEffect, fmul fadeEffect threeTenths).

Definition abscissasOf (turns fades : float * float) : float * float * float :=
  (fst turns, fsub (snd turns) (snd fades), fst fades).

(** The checks on the abscissas: inside the canvas of width 200 for fades up
    to 4; end point on the side the fade pulls to, first control point on the
    side the turn pulls to. *)
Definition insideWidth (x : float) : bool := leb (of_Z 0) x && leb x (of_Z 200).

Definition sweptAt (abscissas : float * float * float) (t f : Z) (mirror : bool) : bool :=
  let '(c1, c2, e) := abscissas in
  ((4 <? f)%Z || (insideWidth c1 && insideWidth c2 && insideWidth e))
  && ((f <? 1)%Z || (if mirror then ltb (of_Z 100) e else ltb e (of_Z 100)))
  && ((-1 <? t)%Z || (if mirror then ltb (of_Z 100) c1 else ltb c1 (of_Z 100))).


Ltac engine_unfold :=
  unfold curveOf, curve, turnEffect, fadeEffect, mirrored, angledTurnEffect,
    angledFadeEffect, rawTurnEffect, rawFadeEffect, arcHeight, effectScale,
    flightLength, estimatedDistance, baseDistance, glideBonus, pixelsPerFoot,
    availableHeight in *;
  cbn [add sub mul div neg min lit Binary64.arith Exact.arith
       originX originY cp1X cp1Y cp2X cp2Y endX endY] in *.

(** ** Laws that hold whatever the arithmetic *)

Section StructuralLaws.

Context {num : Type} `{Arith num}.
Variable toString : num -> string.

Lemma shouldMirror_backhand_equivalent : shouldMirror rhbh = shouldMirror lhfh.
Proof. reflexivity. Qed.

Lemma shouldMirror_forehand_equivalent : shouldMirror rhfh = shouldMirror lhbh.
Proof. reflexivity. Qed.

(** The three strings of a call are the renderings of its three curves. *)
Lemma calculateFlightPath_curves (fn : FlightNumbers num) throwType config :
  calculateFlightPath toString fn throwType config
  = {| hyzerPath := svgPath toString (curveOf fn throwType config hyzer);
       flatPath := svgPath toString (curveOf fn throwType config flat);
       anhyzerPath := svgPath toString (curveOf fn throwType config anhyzer) |}.
Proof. reflexivity. Qed.

(** The geometry reads [startX], [startY] and [maxDistance] only. *)
Lemma curve_reads_three_fields (fn : FlightNumbers num) releaseAngle mirror
      (c1 c2 : CanvasConfig num) :
  startX c1 = startX c2 -> startY c1 = startY c2 -> maxDistance c1 = maxDistance c2 ->
  curve fn releaseAngle mirror c1 = curve fn releaseAngle mirror c2.
Proof.
  intros HX HY HM.
  unfold curve, turnEffect, fadeEffect, rawTurnEffect, rawFadeEffect, arcHeight,
    effectScale, flightLength, estimatedDistance, pixelsPerFoot, availableHeight.
  rewrite HX, HY, HM. reflexivity.
Qed.

Lemma svgPath_pathOf (c : Curve num) : pathOf toString c (svgPath toString c).
Proof.
  split; [reflexivity | ].
  unfold svgPath; cbn. now destruct (_ ++ _)%string.
Qed.

(** Mirroring leaves the start point and every ordinate alone. *)
Lemma mirror_keeps_ordinates (fn : FlightNumbers num) releaseAngle mirror config :
  let c := curve fn releaseAngle mirror config in
  let c0 := curve fn releaseAngle false config in
  originX c = originX c0 /\ originY c = originY c0
  /\ cp1Y c = cp1Y c0 /\ cp2Y c = cp2Y c0 /\ endY c = endY c0.
Proof. cbn. repeat split. Qed.

End StructuralLaws.

(** ** The formulas over exact arithmetic *)

Module ExactLaws.

Local Open Scope Q_scope.

Lemma decimal_exact (m : Z) (d : positive) : decimal m d == m # d.
Proof. unfold decimal; cbn [div lit Exact.arith]. symmetry. apply Qmake_Qdiv. Qed.

Lemma mirror_reflects (fn : FlightNumbers Q) releaseAngle (config : CanvasConfig Q) :
  let backhand := curve fn releaseAngle false config in
  let forehand := curve fn releaseAngle true config in
  endX forehand == reflectAbout (startX config) (endX backhand)
  /\ cp1X forehand == reflectAbout (startX config) (cp1X backhand)
  /\ cp2X forehand == reflectAbout (startX config) (cp2X backhand).
Proof.
  unfold reflectAbout. engine_unfold.
  repeat split; ring.
Qed.

(** When the cap applies, the estimate is [maxDistance] itself. *)
Lemma estimatedDistance_capped (fn : FlightNumbers Q) (config : CanvasConfig Q) :
  maxDistance config < baseDistance fn + glideBonus fn ->
  estimatedDistance fn config == maxDistance config.
Proof.
  intros Hcap. unfold estimatedDistance; cbn [min Exact.arith].
  apply Q.min_r. now apply Qlt_le_weak.
Qed.

Lemma flightLength_capped (fn : FlightNumbers Q) (config : CanvasConfig Q) :
  ~ maxDistance config == 0 ->
  maxDistance config < baseDistance fn + glideBonus fn ->
  flightLength fn config == availableHeight config.
Proof.
  intros Hnz Hcap. unfold flightLength; cbn [mul Exact.arith].
  rewrite (estimatedDistance_capped fn config Hcap).
  unfold pixelsPerFoot; cbn [div Exact.arith]. now field.
Qed.

Lemma endY_capped (fn : FlightNumbers Q) releaseAngle mirror (config : CanvasConfig Q) :
  ~ maxDistance config == 0 ->
  maxDistance config < baseDistance fn + glideBonus fn ->
  endY (curve fn releaseAngle mirror config) == 20.
Proof.
  intros Hnz Hcap. unfold curve; cbn [endY sub Exact.arith].
  rewrite (flightLength_capped fn config Hnz Hcap).
  unfold availableHeight; cbn [sub lit Exact.arith]. ring.
Qed.

Lemma fadeOffsetQ_angled (fn : FlightNumbers Q) releaseAngle mirror (config : CanvasConfig Q) :
  fadeOffsetQ fn releaseAngle mirror config
  == Qabs (angledFadeEffect releaseAngle (rawFadeEffect fn config)).
Proof.
  unfold fadeOffsetQ, curve, fadeEffect, mirrored; cbn [endX sub neg Exact.arith].
  set (a := angledFadeEffect releaseAngle (rawFadeEffect fn config)).
  destruct mirror.
  - setoid_replace (startX config - - a - startX config) with a by ring. reflexivity.
  - setoid_replace (startX config - a - startX config) with (- a) by ring.
    apply Qabs_opp.
Qed.

Lemma rawFadeEffect_nonzero (fn : FlightNumbers Q) (config : CanvasConfig Q) :
  ~ fade fn == 0 -> ~ flightLength fn config == 0 -> ~ rawFadeEffect fn config == 0.
Proof.
  intros Hf Hl. unfold rawFadeEffect, effectScale; cbn [mul div lit Exact.arith].
  intros E. apply Qmult_integral in E. destruct E as [E | E].
  - apply Qmult_integral in E. destruct E as [E | E]; [now apply Hf | discriminate E].
  - apply Hl. setoid_replace (flightLength fn config)
      with (flightLength fn config / inject_Z 250 * inject_Z 250) by (field; discriminate).
    rewrite E. ring.
Qed.

Lemma Qabs_pos_of_nonzero (x : Q) : ~ x == 0 -> 0 < Qabs x.
Proof.
  intros Hx. destruct (Qlt_le_dec 0 (Qabs x)) as [|Hle]; [assumption|].
  exfalso. apply Hx. apply Qabs_Qle_condition in Hle. lra.
Qed.

Lemma exact_angle_ordering (fn : FlightNumbers Q) mirror (config : CanvasConfig Q) :
  ~ fade fn == 0 -> ~ flightLength fn config == 0 ->
  fadeOffsetQ fn flat mirror config < fadeOffsetQ fn hyzer mirror config
  /\ fadeOffsetQ fn anhyzer mirror config < fadeOffsetQ fn flat mirror config.
Proof.
  intros Hf Hl. rewrite !fadeOffsetQ_angled.
  pose proof (Qabs_pos_of_nonzero _ (rawFadeEffect_nonzero fn config Hf Hl)) as Hpos.
  unfold angledFadeEffect; cbn [mul Exact.arith].
  rewrite !Qabs_Qmult, !decimal_exact.
  change (Qabs (14 # 10)) with (14 # 10). change (Qabs (6 # 10)) with (6 # 10).
  set (a := Qabs (rawFadeEffect fn config)) in *.
  split; lra.
Qed.

(** The weights the [switch] applies. *)
Lemma exact_angle_weights (t f : Q) :
  (angledFadeEffect hyzer f == f * (14 # 10)
   /\ angledFadeEffect flat f == f * 1
   /\ angledFadeEffect anhyzer f == f * (6 # 10))
  /\ (angledTurnEffect hyzer t == t * (5 # 10)
      /\ angledTurnEffect flat t == t * 1
      /\ angledTurnEffect anhyzer t == t * (16 # 10)).
Proof.
  unfold angledFadeEffect, angledTurnEffect; cbn [mul Exact.arith].
  rewrite !decimal_exact. repeat split; ring.
Qed.

Lemma estimatedDistance_monotone (fn : FlightNumbers Q) (config : CanvasConfig Q) :
  estimatedDistance fn config <= estimatedDistance (oneFaster fn) config.
Proof.
  unfold estimatedDistance, baseDistance, glideBonus, oneFaster;
    cbn [min add mul lit Exact.arith speed glide].
  apply Q.min_le_compat_r.
  change (inject_Z 30) with 30. change (inject_Z 28) with 28.
  change (inject_Z 1) with 1. lra.
Qed.

Lemma flightLength_monotone (fn : FlightNumbers Q) (config : CanvasConfig Q) :
  0 <= pixelsPerFoot config ->
  flightLength fn config <= flightLength (oneFaster fn) config.
Proof.
  intros Hp. unfold flightLength; cbn [mul Exact.arith].
  apply Qmult_le_compat_r; [apply estimatedDistance_monotone | assumption].
Qed.

End ExactLaws.

(** ** The operators at binary64 *)

Module Binary64Laws.

(** *** Comparison and [Math.min] *)

Lemma SFcompare_swap (x y : float) :
  SFcompare y x = option_map CompOpp (SFcompare x y).
Proof.
  destruct x as [sx | sx | | sx mx ex], y as [sy | sy | | sy my ey]; cbn;
    try reflexivity;
    try (destruct sx; reflexivity); try (destruct sy; reflexivity);
    try (destruct sx, sy; reflexivity).
  destruct sx, sy; cbn; try reflexivity;
    rewrite (Z.compare_antisym ex ey);
    destruct (ex ?= ey)%Z; cbn; try reflexivity;
    pose proof (Pos.compare_cont_antisym mx my Eq) as E; cbn in E;
    now rewrite <- E.
Qed.

Lemma Math_min_capped (x cap : float) : ltb cap x = true -> Math_min x cap = cap.
Proof.
  unfold ltb, SFltb, Math_min. rewrite (SFcompare_swap x cap).
  destruct (SFcompare x cap) as [[ | | ] | ]; cbn; congruence.
Qed.

(** *** Negation commutes with the operators, exactly *)

Lemma binary_round_aux_negb (s : bool) (m e : Z) (l : location) :
  binary_round_aux prec emax (negb s) m e l = SFopp (binary_round_aux prec emax s m e l).
Proof.
  unfold binary_round_aux.
  destruct (shr_fexp prec emax m e l) as [mrs' e'].
  destruct (shr_fexp prec emax _ e' loc_Exact) as [mrs'' e''].
  destruct (shr_m mrs''); [reflexivity | | reflexivity].
  now destruct (Z.leb e'' (emax - prec)).
Qed.

Lemma fmul_fneg_l (x y : float) : fmul (fneg x) y = fneg (fmul x y).
Proof.
  destruct x as [sx | sx | | sx mx ex], y as [sy | sy | | sy my ey]; cbn;
    try reflexivity; try (now rewrite <- negb_xorb_l).
  rewrite <- negb_xorb_l. apply binary_round_aux_negb.
Qed.

Lemma fsub_fneg_r (x y : float) : fsub x (fneg y) = fadd x y.
Proof.
  destruct x as [sx | sx | | sx mx ex], y as [sy | sy | | sy my ey]; cbn;
    try reflexivity;
    try (destruct sx, sy; reflexivity);
    try (now rewrite negb_involutive).
Qed.

Lemma fadd_fneg_r (x y : float) : fadd x (fneg y) = fsub x y.
Proof.
  destruct x as [sx | sx | | sx mx ex], y as [sy | sy | | sy my ey]; cbn;
    try reflexivity;
    try (destruct sx, sy; reflexivity).
Qed.

(** With [t] and [a] the unmirrored turn and fade effects, the mirrored
    abscissas are built from [-t] and [-a]. *)
Lemma mirror_negates (fn : FlightNumbers float) releaseAngle (config : CanvasConfig float) :
  let t := turnEffect fn releaseAngle false config in
  let a := fadeEffect fn releaseAngle false config in
  let x0 := startX config in
  let backhand := curve fn releaseAngle false config in
  let forehand := curve fn releaseAngle true config in
  (endX backhand = fsub x0 a /\ endX forehand = fadd x0 a)
  /\ (cp1X backhand = fadd x0 t /\ cp1X forehand = fsub x0 t)
  /\ (cp2X backhand = fsub (fadd x0 (fmul t (decimal 5 10))) (fmul a (decimal 3 10))
      /\ cp2X forehand = fadd (fsub x0 (fmul t (decimal 5 10))) (fmul a (decimal 3 10))).
Proof.
  unfold curve, turnEffect, fadeEffect, mirrored;
    cbn [add sub mul neg Binary64.arith cp1X cp2X endX].
  rewrite !fmul_fneg_l, !fsub_fneg_r, !fadd_fneg_r.
  repeat split.
Qed.

(** *** NaN is absorbing *)

Lemma fadd_NaN_r (x : float) : fadd x NaN = NaN.
Proof. now destruct x. Qed.

Lemma fsub_NaN_r (x : float) : fsub x NaN = NaN.
Proof. now destruct x. Qed.

Lemma fmul_NaN_r (x : float) : fmul x NaN = NaN.
Proof. now destruct x. Qed.

Lemma is_nan_eq (x : float) : is_nan x = true -> x = NaN.
Proof. now destruct x. Qed.

Lemma flightLength_NaN (fn : FlightNumbers float) (config : CanvasConfig float) :
  is_nan (speed fn) = true \/ is_nan (glide fn) = true ->
  flightLength fn config = NaN.
Proof.
  intros [E | E]; apply is_nan_eq in E; engine_unfold; rewrite E; cbn.
  - reflexivity.
  - now rewrite fadd_NaN_r.
Qed.

(** Once the flight length is NaN, so is every computed coordinate. *)
Lemma curve_NaN (fn : FlightNumbers float) releaseAngle mirror (config : CanvasConfig float) :
  flightLength fn config = NaN ->
  curve fn releaseAngle mirror config
  = {| originX := startX config; originY := startY config;
       cp1X := NaN; cp1Y := NaN; cp2X := NaN; cp2Y := NaN; endX := NaN; endY := NaN |}.
Proof.
  intros E.
  unfold curve, turnEffect, fadeEffect, mirrored, angledTurnEffect, angledFadeEffect,
    rawTurnEffect, rawFadeEffect, arcHeight, effectScale.
  rewrite E. cbn [add sub mul div neg Binary64.arith].
  change (fdiv NaN (lit 250)) with NaN.
  rewrite !fmul_NaN_r.
  destruct releaseAngle, mirror; cbn; now rewrite ?fadd_NaN_r, ?fsub_NaN_r.
Qed.

(** *** The capped flight length *)

Lemma flightLength_capped64 (fn : FlightNumbers float) (config : CanvasConfig float) :
  ltb (maxDistance config) (fadd (baseDistance fn) (glideBonus fn)) = true ->
  flightLength fn config
  = fmul (maxDistance config) (fdiv (availableHeight config) (maxDistance config)).
Proof.
  intros Hcap. unfold flightLength, estimatedDistance, pixelsPerFoot;
    cbn [mul div min add Binary64.arith].
  now rewrite (Math_min_capped _ _ Hcap).
Qed.

(** *** Finite checks over the normal range of flight numbers *)

Lemma forallb_zrange (P : Z -> bool) (n : nat) :
  forall lo, forallb P (zrange lo n) = true ->
  forall z, (lo <= z < lo + Z.of_nat n)%Z -> P z = true.
Proof.
  induction n as [| n IH]; intros lo Hall z Hz; cbn [zrange forallb] in Hall.
  - lia.
  - apply andb_prop in Hall. destruct Hall as [Hlo Hrest].
    destruct (Z.eq_dec z lo) as [-> | Hne]; [exact Hlo | ].
    apply (IH (lo + 1)%Z Hrest). lia.
Qed.

Lemma ordered_on_range :
  forallb (fun s => forallb (fun g => forallb (fun f =>
    orderedAt s g f false && orderedAt s g f true)
    (zrange 1 5)) (zrange 1 7)) (zrange 1 15) = true.
Proof. vm_compute. reflexivity. Qed.

Lemma monotone_on_range :
  forallb (fun s => forallb (fun g => monotoneAt s g) (zrange 1 7)) (zrange 1 15) = true.
Proof. vm_compute. reflexivity. Qed.

Lemma fadeOffset_ignores_turn (s g : Z) (t f : float) releaseAngle mirror config :
  fadeOffset (disc s g t f) releaseAngle mirror config
  = fadeOffset (disc s g (of_Z 0) f) releaseAngle mirror config.
Proof. unfold fadeOffset, disc. engine_unfold. reflexivity. Qed.

Lemma flightLength_reads_speed_glide (s g : Z) (t f : float) config :
  estimatedDistance (disc s g t f) config = estimatedDistance (disc s g (of_Z 0) (of_Z 0)) config
  /\ flightLength (disc s g t f) config = flightLength (disc s g (of_Z 0) (of_Z 0)) config
  /\ estimatedDistance (oneFaster (disc s g t f)) config
     = estimatedDistance (oneFaster (disc s g (of_Z 0) (of_Z 0))) config
  /\ flightLength (oneFaster (disc s g t f)) config
     = flightLength (oneFaster (disc s g (of_Z 0) (of_Z 0))) config.
Proof. unfold oneFaster, disc. engine_unfold. repeat split. Qed.

Lemma orderedAt_on_range (s g f : Z) (mirror : bool) :
  (1 <= s <= 15)%Z -> (1 <= g <= 7)%Z -> (1 <= f <= 5)%Z -> orderedAt s g f mirror = true.
Proof.
  intros Hs Hg Hf.
  pose proof (forallb_zrange _ _ _ ordered_on_range s ltac:(lia)) as H1. cbv beta in H1.
  pose proof (forallb_zrange _ _ _ H1 g ltac:(lia)) as H2. cbv beta in H2.
  pose proof (forallb_zrange _ _ _ H2 f ltac:(lia)) as H3. cbv beta in H3.
  apply andb_prop in H3. destruct mirror; tauto.
Qed.

Lemma monotoneAt_on_range (s g : Z) :
  (1 <= s <= 15)%Z -> (1 <= g <= 7)%Z -> monotoneAt s g = true.
Proof.
  intros Hs Hg.
  pose proof (forallb_zrange _ _ _ monotone_on_range s ltac:(lia)) as H1. cbv beta in H1.
  exact (forallb_zrange _ _ _ H1 g ltac:(lia)).
Qed.

End Binary64Laws.

(** * The laws of the engine *)

(** ** Throw equivalence, default config, unused fields *)

(** C1. Throw equivalence: ['rhbh'] and ['lhfh'] return the same
    [FlightPaths], and so do ['rhfh'] and ['lhbh']; the three curves behind
    the strings agree coordinate for coordinate.  This holds whatever the
    arithmetic and the number formatting. *)
Theorem throw_equivalence {num : Type} `{Arith num} (toString : num -> string)
        (fn : FlightNumbers num) (config : option (CanvasConfig num)) :
  calculateFlightPath toString fn rhbh config = calculateFlightPath toString fn lhfh config
  /\ calculateFlightPath toString fn rhfh config = calculateFlightPath toString fn lhbh config
  /\ (forall releaseAngle,
        curveOf fn rhbh config releaseAngle = curveOf fn lhfh config releaseAngle)
  /\ (forall releaseAngle,
        curveOf fn rhfh config releaseAngle = curveOf fn lhbh config releaseAngle).
Proof.
  unfold calculateFlightPath, curveOf.
  rewrite shouldMirror_backhand_equivalent, shouldMirror_forehand_equivalent.
  repeat split.
Qed.

(** C9. Omitting the config argument is calling with the default config
    [{width: 200, height: 300, startX: 100, startY: 280, maxDistance: 400}]. *)
Theorem omitted_config_is_default {num : Type} `{Arith num} (toString : num -> string)
        (fn : FlightNumbers num) (throwType : ThrowType) :
  calculateFlightPath toString fn throwType None
  = calculateFlightPath toString fn throwType
      (Some {| width := lit 200; height := lit 300;
               startX := lit 100; startY := lit 280; maxDistance := lit 400 |}).
Proof. reflexivity. Qed.

(** C10. The result does not depend on [width] and [height]: two configs
    that agree on [startX], [startY] and [maxDistance] give the same
    [FlightPaths]. *)
Theorem width_height_irrelevant {num : Type} `{Arith num} (toString : num -> string)
        (fn : FlightNumbers num) (throwType : ThrowType) (c1 c2 : CanvasConfig num) :
  startX c1 = startX c2 -> startY c1 = startY c2 -> maxDistance c1 = maxDistance c2 ->
  calculateFlightPath toString fn throwType (Some c1)
  = calculateFlightPath toString fn throwType (Some c2).
Proof.
  intros HX HY HM. unfold calculateFlightPath, generatePath.
  now rewrite !(curve_reads_three_fields fn _ _ c1 c2 HX HY HM).
Qed.

(** A square canvas of side 1 and the default canvas, both with the default
    origin and scale, draw the standard disc alike. *)
Lemma width_height_irrelevant_witness :
  let tiny : CanvasConfig float :=
    {| width := of_Z 1; height := of_Z 1;
       startX := of_Z 100; startY := of_Z 280; maxDistance := of_Z 400 |} in
  (width tiny <> width DEFAULT_CONFIG /\ height tiny <> height DEFAULT_CONFIG)
  /\ (startX tiny = startX DEFAULT_CONFIG /\ startY tiny = startY DEFAULT_CONFIG
      /\ maxDistance tiny = maxDistance DEFAULT_CONFIG)
  /\ calculateFlightPath to_string standardFlightNumbers rhfh (Some tiny)
     = calculateFlightPath to_string standardFlightNumbers rhfh (Some DEFAULT_CONFIG).
Proof.
  intros tiny.
  split; [split; discriminate | ].
  split; [repeat split | ].
  apply (width_height_irrelevant to_string standardFlightNumbers rhfh tiny DEFAULT_CONFIG);
    reflexivity.
Defined.

(** ** Totality *)

(** C7. [calculateFlightPath] returns on every input: for all doubles as
    flight numbers and canvas fields (negative, huge, infinite or NaN), for
    each throw type and with or without a config, the three descriptors are
    path strings.  The body has no failing operation; a zero [maxDistance]
    makes the division [availableHeight / maxDistance] infinite or NaN, not
    an exception. *)
Theorem calculateFlightPath_total (toString : float -> string)
        (fn : FlightNumbers float) (throwType : ThrowType)
        (config : option (CanvasConfig float)) :
  let paths := calculateFlightPath toString fn throwType config in
  (pathOf toString (curveOf fn throwType config hyzer) (hyzerPath paths)
   /\ pathOf toString (curveOf fn throwType config flat) (flatPath paths)
   /\ pathOf toString (curveOf fn throwType config anhyzer) (anhyzerPath paths))
  /\ (forall (w h x0 y0 : float) (sign : bool),
        is_finite (pixelsPerFoot {| width := w; height := h; startX := x0;
                                    startY := y0; maxDistance := S754_zero sign |})
        = false).
Proof.
  split.
  - rewrite calculateFlightPath_curves. cbn [hyzerPath flatPath anhyzerPath].
    repeat split; apply svgPath_pathOf.
  - intros w h x0 y0 sign. unfold pixelsPerFoot, availableHeight.
    cbn [startY maxDistance div sub Binary64.arith].
    now destruct (fsub y0 _).
Qed.

(** ** Mirroring *)

(** C2, as the counterexample shows it to fail: the distance driver of the
    test file, thrown anhyzer on the default canvas.  In double precision
    the forehand end point is not the reflection of the backhand one. *)
Lemma mirror_not_exact_in_doubles :
  endX (curveOf (distanceDriver : FlightNumbers float) rhfh None anhyzer)
  <> reflectAbout (of_Z 100)
       (endX (curveOf (distanceDriver : FlightNumbers float) rhbh None anhyzer)).
Proof. vm_compute. discriminate. Qed.

(** C2, amended.  The forehand curve is built from the negated turn and
    fade effects and has the start point and ordinates of the backhand
    curve: in doubles, where the backhand abscissas are [startX - a],
    [startX + t] and [startX + t * 0.5 - a * 0.3], the forehand ones are
    [startX + a], [startX - t] and [startX - t * 0.5 + a * 0.3], for the
    same [t] and [a].  Over exact arithmetic (the scale [maxDistance] not
    zero, for the quotient to be defined) that is the reflection
    [startX - (x - startX)] of each backhand abscissa. *)
Theorem mirror_law :
  (forall (fn : FlightNumbers float) (config : CanvasConfig float) releaseAngle,
      let backhand := curveOf fn rhbh (Some config) releaseAngle in
      let forehand := curveOf fn rhfh (Some config) releaseAngle in
      let t := turnEffect fn releaseAngle false config in
      let a := fadeEffect fn releaseAngle false config in
      let x0 := startX config in
      (originX forehand = originX backhand /\ originY forehand = originY backhand
       /\ cp1Y forehand = cp1Y backhand /\ cp2Y forehand = cp2Y backhand
       /\ endY forehand = endY backhand)
      /\ (endX backhand = fsub x0 a /\ endX forehand = fadd x0 a)
      /\ (cp1X backhand = fadd x0 t /\ cp1X forehand = fsub x0 t)
      /\ (cp2X backhand = fsub (fadd x0 (fmul t (decimal 5 10))) (fmul a (decimal 3 10))
          /\ cp2X forehand
             = fadd (fsub x0 (fmul t (decimal 5 10))) (fmul a (decimal 3 10))))
  /\ (forall (fn : FlightNumbers Q) (config : CanvasConfig Q) releaseAngle,
      ~ maxDistance config == 0 ->
      let backhand := curveOf fn rhbh (Some config) releaseAngle in
      let forehand := curveOf fn rhfh (Some config) releaseAngle in
      (originX forehand = originX backhand /\ originY forehand = originY backhand
       /\ cp1Y forehand = cp1Y backhand /\ cp2Y forehand = cp2Y backhand
       /\ endY forehand = endY backhand)
      /\ endX forehand == reflectAbout (startX config) (endX backhand)
      /\ cp1X forehand == reflectAbout (startX config) (cp1X backhand)
      /\ cp2X forehand == reflectAbout (startX config) (cp2X backhand)).
Proof.
  split; [intros fn config releaseAngle | intros fn config releaseAngle _];
    unfold curveOf; cbn [shouldMirror].
  - split; [apply (mirror_keeps_ordinates fn releaseAngle true config) | ].
    apply Binary64Laws.mirror_negates.
  - split; [apply (mirror_keeps_ordinates fn releaseAngle true config) | ].
    apply ExactLaws.mirror_reflects.
Qed.

(** The distance driver thrown anhyzer on the default canvas: over exact
    arithmetic its forehand end point is the reflection of the backhand one,
    71.92 and 128.08 about 100. *)
Lemma mirror_law_witness :
  let driver : FlightNumbers Q := distanceDriver in
  (~ maxDistance (DEFAULT_CONFIG : CanvasConfig Q) == 0
   /\ endX (curveOf driver rhbh (Some DEFAULT_CONFIG) anhyzer) == 7192 # 100
   /\ endX (curveOf driver rhfh (Some DEFAULT_CONFIG) anhyzer) == 12808 # 100
   /\ endX (curveOf driver rhfh (Some DEFAULT_CONFIG) anhyzer)
      == reflectAbout (startX DEFAULT_CONFIG)
           (endX (curveOf driver rhbh (Some DEFAULT_CONFIG) anhyzer)))%Q.
Proof.
  intros driver.
  assert (~ (maxDistance (DEFAULT_CONFIG : CanvasConfig Q) == 0)%Q) as Hnz
    by (intros E; discriminate E).
  split; [exact Hnz | split; [reflexivity | split; [reflexivity | ]]].
  exact (proj1 (proj2 (proj2 mirror_law driver DEFAULT_CONFIG anhyzer Hnz))).
Defined.

(** ** The distance cap *)

(** C3, as the counterexamples show it to fail, for the standard disc whose
    391 ft exceed both scales: with [maxDistance = 0] the flight length is
    [0 * Infinity = NaN]; with [startY = 21] and [maxDistance = 49] it is
    [49 * (1 / 49)], which rounds to the double below 1. *)
Lemma cap_not_exact_in_doubles :
  let standard : FlightNumbers float := standardFlightNumbers in
  let zeroScale : CanvasConfig float := canvas 280 0 in
  let oddScale : CanvasConfig float := canvas 21 49 in
  (ltb (maxDistance zeroScale) (fadd (baseDistance standard) (glideBonus standard)) = true
   /\ availableHeight zeroScale = of_Z 260
   /\ flightLength standard zeroScale = NaN
   /\ flightLength standard zeroScale <> availableHeight zeroScale
   /\ endY (curveOf standard rhbh (Some zeroScale) flat) <> of_Z 20)
  /\ (ltb (maxDistance oddScale) (fadd (baseDistance standard) (glideBonus standard)) = true
      /\ availableHeight oddScale = of_Z 1
      /\ flightLength standard oddScale = S754_finite false 9007199254740991 (-53)
      /\ flightLength standard oddScale <> availableHeight oddScale).
Proof. vm_compute. repeat split; discriminate. Qed.

(** C3, amended.  When [baseDistance + glideBonus] exceeds [maxDistance]:
    over exact arithmetic and for a nonzero [maxDistance], [flightLength] is
    [availableHeight] and [endY] is 20; in doubles [flightLength] is the
    product [maxDistance * (availableHeight / maxDistance)], which on the
    default canvas is exactly 260 and gives [endY = 20] for every throw type
    and release angle. *)
Theorem distance_cap :
  (forall (fn : FlightNumbers Q) (config : CanvasConfig Q) throwType releaseAngle,
      ~ maxDistance config == 0 ->
      maxDistance config < baseDistance fn + glideBonus fn ->
      flightLength fn config == availableHeight config
      /\ endY (curveOf fn throwType (Some config) releaseAngle) == 20)%Q
  /\ (forall (fn : FlightNumbers float) (config : CanvasConfig float),
      ltb (maxDistance config) (fadd (baseDistance fn) (glideBonus fn)) = true ->
      flightLength fn config
      = fmul (maxDistance config) (fdiv (availableHeight config) (maxDistance config)))
  /\ (forall (fn : FlightNumbers float) throwType releaseAngle,
      ltb (lit 400) (fadd (baseDistance fn) (glideBonus fn)) = true ->
      flightLength fn DEFAULT_CONFIG = of_Z 260
      /\ availableHeight (DEFAULT_CONFIG : CanvasConfig float) = of_Z 260
      /\ endY (curveOf fn throwType None releaseAngle) = of_Z 20).
Proof.
  split; [ | split].
  - intros fn config throwType releaseAngle Hnz Hcap. split.
    + now apply ExactLaws.flightLength_capped.
    + now apply ExactLaws.endY_capped.
  - apply Binary64Laws.flightLength_capped64.
  - intros fn throwType releaseAngle Hcap.
    assert (flightLength fn DEFAULT_CONFIG = of_Z 260) as E.
    { rewrite (Binary64Laws.flightLength_capped64 fn DEFAULT_CONFIG Hcap).
      vm_compute. reflexivity. }
    split; [exact E | split; [vm_compute; reflexivity | ]].
    unfold curveOf, curve. cbn [endY]. rewrite E. vm_compute. reflexivity.
Qed.

(** The distance driver of the test file (452 ft) is capped on the default
    canvas, over both arithmetics. *)
Lemma distance_cap_witness :
  let driver : FlightNumbers float := distanceDriver in
  let driverQ : FlightNumbers Q := distanceDriver in
  ((~ maxDistance (DEFAULT_CONFIG : CanvasConfig Q) == 0
    /\ maxDistance DEFAULT_CONFIG < baseDistance driverQ + glideBonus driverQ)
   /\ flightLength driverQ DEFAULT_CONFIG == availableHeight DEFAULT_CONFIG
   /\ endY (curveOf driverQ rhbh (Some DEFAULT_CONFIG) hyzer) == 20)%Q
  /\ ltb (lit 400) (fadd (baseDistance driver) (glideBonus driver)) = true
  /\ flightLength driver DEFAULT_CONFIG
     = fmul (maxDistance DEFAULT_CONFIG)
            (fdiv (availableHeight DEFAULT_CONFIG) (maxDistance DEFAULT_CONFIG))
  /\ endY (curveOf driver rhfh None anhyzer) = of_Z 20.
Proof.
  intros driver driverQ.
  destruct distance_cap as [HQ [HF HD]].
  assert (~ (maxDistance (DEFAULT_CONFIG : CanvasConfig Q) == 0)%Q) as Hnz
    by (intros E; discriminate E).
  assert ((maxDistance DEFAULT_CONFIG < baseDistance driverQ + glideBonus driverQ)%Q)
    as HcapQ by reflexivity.
  assert (ltb (lit 400) (fadd (baseDistance driver) (glideBonus driver)) = true)
    as Hcap by reflexivity.
  split; [split; [split; assumption | ] | split; [exact Hcap | split]].
  - exact (HQ driverQ DEFAULT_CONFIG rhbh hyzer Hnz HcapQ).
  - exact (HF driver DEFAULT_CONFIG Hcap).
  - exact (proj2 (proj2 (HD driver rhfh anhyzer Hcap))).
Defined.

(** ** The scenario of the specification *)

(** C4. The standard disc (speed 12, glide 5, turn -1, fade 3) on the default
    canvas.  In doubles: the flat backhand path starts at (100, 280), the
    estimated distance is 391, [pixelsPerFoot] is the double 0.65, the
    flight length is [391 * 0.65], the double 254.15, the fade effect is
    within 0.005 of 45.75 and the end point within 0.005 of (54.25, 25.85);
    the flat forehand path ends within 0.005 of (145.75, 25.85) and is here
    the exact reflection.  Over exact arithmetic the values are 391, 0.65,
    254.15, 45.747, (54.253, 25.85) and (145.747, 25.85). *)
Theorem standard_scenario :
  (let standard : FlightNumbers float := standardFlightNumbers in
   let default : CanvasConfig float := DEFAULT_CONFIG in
   let flatBackhand := curveOf standard rhbh None flat in
   let flatForehand := curveOf standard rhfh None flat in
   let tolerance : float := decimal 5 1000 in
   (originX flatBackhand = of_Z 100 /\ originY flatBackhand = of_Z 280)
   /\ estimatedDistance standard default = of_Z 391
   /\ pixelsPerFoot default = decimal 65 100
   /\ flightLength standard default = fmul (of_Z 391) (decimal 65 100)
   /\ flightLength standard default = decimal 25415 100
   /\ within tolerance (decimal 4575 100) (fadeEffect standard flat false default) = true
   /\ (within tolerance (decimal 5425 100) (endX flatBackhand) = true
       /\ within tolerance (decimal 2585 100) (endY flatBackhand) = true)
   /\ (within tolerance (decimal 14575 100) (endX flatForehand) = true
       /\ within tolerance (decimal 2585 100) (endY flatForehand) = true)
   /\ (endX flatForehand = reflectAbout (of_Z 100) (endX flatBackhand)
       /\ endY flatForehand = endY flatBackhand))
  /\ (let standard : FlightNumbers Q := standardFlightNumbers in
      let default : CanvasConfig Q := DEFAULT_CONFIG in
      let flatBackhand := curveOf standard rhbh None flat in
      let flatForehand := curveOf standard rhfh None flat in
      (originX flatBackhand == 100 /\ originY flatBackhand == 280)
      /\ estimatedDistance standard default == 391
      /\ pixelsPerFoot default == 65 # 100
      /\ flightLength standard default == 25415 # 100
      /\ fadeEffect standard flat false default == 45747 # 1000
      /\ (endX flatBackhand == 54253 # 1000 /\ endY flatBackhand == 2585 # 100)
      /\ (endX flatForehand == 145747 # 1000 /\ endY flatForehand == 2585 # 100))%Q.
Proof. vm_compute. repeat split. Qed.

(** ** Release-angle ordering *)

(** C5, as the counterexample shows it to fail: the standard disc (fade 3)
    on a canvas whose origin sits on the top margin, [startY = 20].  The
    available height and with it every effect is zero, and the three curves
    end at the same abscissa. *)
Lemma zero_height_has_no_ordering :
  let standard : FlightNumbers float := standardFlightNumbers in
  let onMargin : CanvasConfig float := canvas 20 400 in
  fade standard = of_Z 3
  /\ flightLength standard onMargin = S754_zero false
  /\ fadeOffset standard hyzer false onMargin = S754_zero false
  /\ fadeOffset standard flat false onMargin = S754_zero false
  /\ fadeOffset standard anhyzer false onMargin = S754_zero false
  /\ ltb (fadeOffset standard flat false onMargin) (fadeOffset standard hyzer false onMargin) = false
  /\ ltb (fadeOffset standard anhyzer false onMargin) (fadeOffset standard flat false onMargin) = false.
Proof. vm_compute. repeat split. Qed.

(** C5, amended.  The [switch] weighs [fadeEffect] by 1.4, 1 and 0.6 and
    [turnEffect] by 0.5, 1 and 1.6 for hyzer, flat and anhyzer.  Over exact
    arithmetic, for a nonzero fade and a nonzero flight length, the fade
    offset [|endX - startX|] of the hyzer path is strictly greater than that
    of the flat path, and that of the anhyzer path strictly less.  In
    doubles the same strict ordering holds on the default canvas for every
    throw type and all integer speeds 1..15, glides 1..7 and fades 1..5. *)
Theorem release_angle_ordering :
  (forall (fn : FlightNumbers Q) (config : CanvasConfig Q) throwType,
      ~ fade fn == 0 -> ~ flightLength fn config == 0 ->
      fadeOffsetQ fn flat (shouldMirror throwType) config
      < fadeOffsetQ fn hyzer (shouldMirror throwType) config
      /\ fadeOffsetQ fn anhyzer (shouldMirror throwType) config
         < fadeOffsetQ fn flat (shouldMirror throwType) config)%Q
  /\ (forall t f : Q,
      (angledFadeEffect hyzer f == f * (14 # 10)
       /\ angledFadeEffect flat f == f * 1
       /\ angledFadeEffect anhyzer f == f * (6 # 10))
      /\ (angledTurnEffect hyzer t == t * (5 # 10)
          /\ angledTurnEffect flat t == t * 1
          /\ angledTurnEffect anhyzer t == t * (16 # 10)))%Q
  /\ (forall (s g f : Z) (t : float) throwType,
      (1 <= s <= 15)%Z -> (1 <= g <= 7)%Z -> (1 <= f <= 5)%Z ->
      let fn := disc s g t (of_Z f) in
      ltb (fadeOffset fn flat (shouldMirror throwType) DEFAULT_CONFIG)
          (fadeOffset fn hyzer (shouldMirror throwType) DEFAULT_CONFIG) = true
      /\ ltb (fadeOffset fn anhyzer (shouldMirror throwType) DEFAULT_CONFIG)
             (fadeOffset fn flat (shouldMirror throwType) DEFAULT_CONFIG) = true).
Proof.
  split; [ | split].
  - intros fn config throwType Hf Hl. now apply ExactLaws.exact_angle_ordering.
  - apply ExactLaws.exact_angle_weights.
  - intros s g f t throwType Hs Hg Hf fn. subst fn.
    rewrite !(Binary64Laws.fadeOffset_ignores_turn s g t).
    apply andb_prop.
    exact (Binary64Laws.orderedAt_on_range s g f (shouldMirror throwType) Hs Hg Hf).
Qed.

(** The standard disc on the default canvas, over both arithmetics. *)
Lemma release_angle_ordering_witness :
  ((~ fade (standardFlightNumbers : FlightNumbers Q) == 0
    /\ ~ flightLength (standardFlightNumbers : FlightNumbers Q) DEFAULT_CONFIG == 0)
   /\ fadeOffsetQ standardFlightNumbers flat true DEFAULT_CONFIG
      < fadeOffsetQ standardFlightNumbers hyzer true DEFAULT_CONFIG
   /\ fadeOffsetQ standardFlightNumbers anhyzer true DEFAULT_CONFIG
      < fadeOffsetQ standardFlightNumbers flat true DEFAULT_CONFIG)%Q
  /\ ltb (fadeOffset (disc 12 5 (of_Z (-1)) (of_Z 3)) flat false DEFAULT_CONFIG)
         (fadeOffset (disc 12 5 (of_Z (-1)) (of_Z 3)) hyzer false DEFAULT_CONFIG) = true
  /\ ltb (fadeOffset (disc 12 5 (of_Z (-1)) (of_Z 3)) anhyzer false DEFAULT_CONFIG)
         (fadeOffset (disc 12 5 (of_Z (-1)) (of_Z 3)) flat false DEFAULT_CONFIG) = true.
Proof.
  destruct release_angle_ordering as [HQ [_ HD]].
  assert (~ (fade (standardFlightNumbers : FlightNumbers Q) == 0)%Q) as Hf
    by (intros E; discriminate E).
  assert (~ (flightLength (standardFlightNumbers : FlightNumbers Q) DEFAULT_CONFIG == 0)%Q)
    as Hl by (intros E; vm_compute in E; discriminate E).
  split; [split; [split; assumption | ] | ].
  - exact (HQ standardFlightNumbers DEFAULT_CONFIG rhfh Hf Hl).
  - apply (HD 12 5 3 (of_Z (-1)) rhbh)%Z; lia.
Defined.

(** ** Monotonicity in speed *)

(** C6, as the counterexample shows it to fail: the standard disc on a
    canvas whose origin is above the top margin, [startY = 10].  The
    available height [-10] is negative, so is [pixelsPerFoot], and one more
    unit of speed (391 ft to the cap of 400 ft) makes the flight length
    smaller, [-9.775] to [-10]. *)
Lemma inverted_canvas_is_not_monotone :
  let standard : FlightNumbers float := standardFlightNumbers in
  let inverted : CanvasConfig float := canvas 10 400 in
  availableHeight inverted = of_Z (-10)
  /\ estimatedDistance standard inverted = of_Z 391
  /\ estimatedDistance (oneFaster standard) inverted = of_Z 400
  /\ flightLength (oneFaster standard) inverted = of_Z (-10)
  /\ ltb (flightLength (oneFaster standard) inverted) (flightLength standard inverted) = true.
Proof. vm_compute. repeat split. Qed.

(** C6, amended.  Over exact arithmetic, one more unit of speed never
    decreases [estimatedDistance = min(30 + speed*28 + glide*5, maxDistance)],
    whatever the config, and never decreases [flightLength] when
    [maxDistance] is not zero and [pixelsPerFoot] is not negative (as on the
    default canvas).  In doubles
    both hold on the default canvas for all integer speeds 1..15 and glides
    1..7, whatever the turn and fade. *)
Theorem speed_monotonicity :
  (forall (fn : FlightNumbers Q) (config : CanvasConfig Q),
      estimatedDistance fn config <= estimatedDistance (oneFaster fn) config)%Q
  /\ (forall (fn : FlightNumbers Q) (config : CanvasConfig Q),
      ~ maxDistance config == 0 -> 0 <= pixelsPerFoot config ->
      flightLength fn config <= flightLength (oneFaster fn) config)%Q
  /\ (forall (s g : Z) (t f : float),
      (1 <= s <= 15)%Z -> (1 <= g <= 7)%Z ->
      let fn := disc s g t f in
      leb (estimatedDistance fn DEFAULT_CONFIG)
          (estimatedDistance (oneFaster fn) DEFAULT_CONFIG) = true
      /\ leb (flightLength fn DEFAULT_CONFIG)
             (flightLength (oneFaster fn) DEFAULT_CONFIG) = true).
Proof.
  split; [ | split].
  - apply ExactLaws.estimatedDistance_monotone.
  - intros fn config _. apply ExactLaws.flightLength_monotone.
  - intros s g t f Hs Hg fn. subst fn.
    destruct (Binary64Laws.flightLength_reads_speed_glide s g t f DEFAULT_CONFIG)
      as (-> & -> & -> & ->).
    apply andb_prop. exact (Binary64Laws.monotoneAt_on_range s g Hs Hg).
Qed.

(** The standard disc on the default canvas, over both arithmetics. *)
Lemma speed_monotonicity_witness :
  let standard : FlightNumbers Q := standardFlightNumbers in
  ((~ maxDistance (DEFAULT_CONFIG : CanvasConfig Q) == 0
    /\ 0 <= pixelsPerFoot (DEFAULT_CONFIG : CanvasConfig Q))
   /\ flightLength standard DEFAULT_CONFIG <= flightLength (oneFaster standard) DEFAULT_CONFIG)%Q
  /\ leb (flightLength (disc 12 5 (of_Z (-1)) (of_Z 3)) DEFAULT_CONFIG)
         (flightLength (oneFaster (disc 12 5 (of_Z (-1)) (of_Z 3))) DEFAULT_CONFIG) = true.
Proof.
  intros standard.
  destruct speed_monotonicity as [_ [HQ HD]].
  assert (~ (maxDistance (DEFAULT_CONFIG : CanvasConfig Q) == 0)%Q) as Hnz
    by (intros E; discriminate E).
  assert ((0 <= pixelsPerFoot (DEFAULT_CONFIG : CanvasConfig Q))%Q) as Hp
    by (intros E; discriminate E).
  split; [split; [split; assumption | ] | ].
  - exact (HQ standard DEFAULT_CONFIG Hnz Hp).
  - apply (HD 12 5 (of_Z (-1)) (of_Z 3))%Z; lia.
Defined.

(** ** Non-finite inputs *)

(** C8, as the counterexample shows it to fail: a NaN speed is not rejected.
    The call returns, and each of the three descriptors carries NaN in
    every computed coordinate. *)
Lemma nan_speed_is_not_rejected :
  let nanSpeed : FlightNumbers float :=
    {| speed := NaN; glide := of_Z 5; turn := of_Z (-1); fade := of_Z 3 |} in
  let broken : Curve float :=
    {| originX := of_Z 100; originY := of_Z 280;
       cp1X := NaN; cp1Y := NaN; cp2X := NaN; cp2Y := NaN; endX := NaN; endY := NaN |} in
  calculateFlightPath to_string nanSpeed rhbh None
  = {| hyzerPath := svgPath to_string broken;
       flatPath := svgPath to_string broken;
       anhyzerPath := svgPath to_string broken |}
  /\ svgPath to_string broken
     = "M 7036874417766400p-46 4925812092436480p-44 C NaN NaN, NaN NaN, NaN NaN"%string.
Proof. vm_compute. split; reflexivity. Qed.

(** An infinite glide is capped in the distance but not in the arc height:
    the second control point of the returned curve is at infinity. *)
Example infinite_glide_is_not_rejected :
  let soaring : FlightNumbers float :=
    {| speed := of_Z 12; glide := S754_infinity false; turn := of_Z (-1); fade := of_Z 3 |} in
  flightLength soaring DEFAULT_CONFIG = of_Z 260
  /\ cp2Y (curveOf soaring rhbh None flat) = S754_infinity false.
Proof. vm_compute. split; reflexivity. Qed.

(** C8, amended.  [calculateFlightPath] validates nothing and has no
    rejecting outcome: when the speed or the glide is NaN it returns three
    descriptors in which every computed coordinate is NaN, rendered by the
    number formatting like any other value. *)
Theorem no_input_validation (toString : float -> string) (fn : FlightNumbers float)
        (throwType : ThrowType) (config : option (CanvasConfig float)) :
  is_nan (speed fn) = true \/ is_nan (glide fn) = true ->
  let effective := match config with Some c => c | None => DEFAULT_CONFIG end in
  let broken : Curve float :=
    {| originX := startX effective; originY := startY effective;
       cp1X := NaN; cp1Y := NaN; cp2X := NaN; cp2Y := NaN; endX := NaN; endY := NaN |} in
  (forall releaseAngle, curveOf fn throwType config releaseAngle = broken)
  /\ calculateFlightPath toString fn throwType config
     = {| hyzerPath := svgPath toString broken;
          flatPath := svgPath toString broken;
          anhyzerPath := svgPath toString broken |}.
Proof.
  intros Hnan effective broken.
  assert (forall releaseAngle, curveOf fn throwType config releaseAngle = broken) as Hc.
  { intros releaseAngle. unfold curveOf. fold effective.
    apply Binary64Laws.curve_NaN. now apply Binary64Laws.flightLength_NaN. }
  split; [exact Hc | ].
  rewrite calculateFlightPath_curves. now rewrite !Hc.
Qed.

(** A NaN glide on a forehand throw. *)
Lemma no_input_validation_witness :
  let nanGlide : FlightNumbers float :=
    {| speed := of_Z 12; glide := NaN; turn := of_Z (-1); fade := of_Z 3 |} in
  (is_nan (speed nanGlide) = true \/ is_nan (glide nanGlide) = true)
  /\ flatPath (calculateFlightPath to_string nanGlide rhfh None)
     = svgPath to_string
         {| originX := of_Z 100; originY := of_Z 280;
            cp1X := NaN; cp1Y := NaN; cp2X := NaN; cp2Y := NaN; endX := NaN; endY := NaN |}.
Proof.
  intros nanGlide.
  assert (is_nan (speed nanGlide) = true \/ is_nan (glide nanGlide) = true) as Hnan
    by (right; reflexivity).
  split; [exact Hnan | ].
  destruct (no_input_validation to_string nanGlide rhfh None Hnan) as [_ E].
  rewrite E. reflexivity.
Defined.

(** ** Further lemmas over exact arithmetic *)

Module ExactGeometry.

Import ExactLaws.
Local Open Scope Q_scope.

Lemma estimatedDistance_le_cap (fn : FlightNumbers Q) (config : CanvasConfig Q) :
  estimatedDistance fn config <= maxDistance config.
Proof. unfold estimatedDistance; cbn [min Exact.arith]. apply Q.le_min_r. Qed.

Lemma pixelsPerFoot_nonneg (config : CanvasConfig Q) :
  0 < maxDistance config -> 20 <= startY config -> 0 <= pixelsPerFoot config.
Proof.
  intros Hm Hy. unfold pixelsPerFoot, availableHeight; cbn [div sub lit Exact.arith].
  apply Qle_shift_div_l; [assumption | ].
  change (inject_Z 20) with 20. lra.
Qed.

Lemma flightLength_le_height (fn : FlightNumbers Q) (config : CanvasConfig Q) :
  0 < maxDistance config -> 20 <= startY config ->
  flightLength fn config <= availableHeight config.
Proof.
  intros Hm Hy. unfold flightLength; cbn [mul Exact.arith].
  pose proof (pixelsPerFoot_nonneg config Hm Hy) as Hp.
  pose proof (estimatedDistance_le_cap fn config) as He.
  setoid_replace (availableHeight config)
    with (maxDistance config * pixelsPerFoot config).
  - apply Qmult_le_compat_r; assumption.
  - unfold pixelsPerFoot; cbn [div Exact.arith]. field. lra.
Qed.

Lemma flightLength_nonneg (fn : FlightNumbers Q) (config : CanvasConfig Q) :
  0 < maxDistance config -> 20 <= startY config ->
  0 <= baseDistance fn + glideBonus fn ->
  0 <= flightLength fn config.
Proof.
  intros Hm Hy He. unfold flightLength; cbn [mul Exact.arith].
  apply Qmult_le_0_compat; [ | now apply pixelsPerFoot_nonneg].
  unfold estimatedDistance; cbn [min Exact.arith].
  apply Q.min_glb; [assumption | lra].
Qed.




(** The abscissas in closed form: [sgn] is the mirror sign, [w] and [v] the
    weights of the release angle. *)
Lemma effects_exact (fn : FlightNumbers Q) releaseAngle mirror (config : CanvasConfig Q) :
  let c := curve fn releaseAngle mirror config in
  let w := match releaseAngle with hyzer => 5 # 10 | flat => 1 | anhyzer => 16 # 10 end in
  let v := match releaseAngle with hyzer => 14 # 10 | flat => 1 | anhyzer => 6 # 10 end in
  let sgn := if mirror then -(1) else 1 in
  let l := flightLength fn config in
  cp1X c == startX config + sgn * (w * (turn fn * 10 * (l / 250)))
  /\ endX c == startX config - sgn * (v * (fade fn * 15 * (l / 250)))
  /\ cp2X c == startX config + sgn * (w * (turn fn * 10 * (l / 250))) * (5 # 10)
              - sgn * (v * (fade fn * 15 * (l / 250))) * (3 # 10).
Proof.
  unfold curve, turnEffect, fadeEffect, mirrored, angledTurnEffect, angledFadeEffect,
    rawTurnEffect, rawFadeEffect, effectScale;
    cbn [cp1X cp2X endX add sub mul div neg lit Exact.arith].
  destruct releaseAngle, mirror; rewrite ?decimal_exact;
    change (inject_Z 10) with 10; change (inject_Z 15) with 15;
    change (inject_Z 250) with 250; repeat split; ring.
Qed.

Lemma weights_positive (releaseAngle : ReleaseAngle) :
  0 < match releaseAngle with hyzer => 5 # 10 | flat => 1 | anhyzer => 16 # 10 end
  /\ 0 < match releaseAngle with hyzer => 14 # 10 | flat => 1 | anhyzer => 6 # 10 end.
Proof. destruct releaseAngle; split; reflexivity. Qed.

Lemma fade_direction (fn : FlightNumbers Q) releaseAngle (mirror : bool) (config : CanvasConfig Q) :
  0 < flightLength fn config -> 0 < fade fn ->
  if mirror return Prop then startX config < endX (curve fn releaseAngle mirror config)
  else endX (curve fn releaseAngle mirror config) < startX config.
Proof.
  intros Hl Hf.
  destruct (effects_exact fn releaseAngle mirror config) as (_ & E & _).
  destruct (weights_positive releaseAngle) as [_ Hv].
  set (v := match releaseAngle with hyzer => 14 # 10 | flat => 1 | anhyzer => 6 # 10 end) in *.
  set (l := flightLength fn config) in *.
  assert (0 < v * (fade fn * 15 * (l / 250))) as Hpos.
  { apply Qmult_lt_0_compat; [assumption | ].
    apply Qmult_lt_0_compat; [apply Qmult_lt_0_compat; [assumption | reflexivity] | ].
    apply Qlt_shift_div_l; [reflexivity | lra]. }
  destruct mirror; cbv zeta in E; rewrite E; lra.
Qed.

Lemma turn_direction (fn : FlightNumbers Q) releaseAngle (mirror : bool) (config : CanvasConfig Q) :
  0 < flightLength fn config -> turn fn < 0 ->
  if mirror return Prop then startX config < cp1X (curve fn releaseAngle mirror config)
  else cp1X (curve fn releaseAngle mirror config) < startX config.
Proof.
  intros Hl Ht.
  destruct (effects_exact fn releaseAngle mirror config) as (E & _ & _).
  destruct (weights_positive releaseAngle) as [Hw _].
  set (w := match releaseAngle with hyzer => 5 # 10 | flat => 1 | anhyzer => 16 # 10 end) in *.
  set (l := flightLength fn config) in *.
  assert (0 < w * (- turn fn * 10 * (l / 250))) as Hpos.
  { apply Qmult_lt_0_compat; [assumption | ].
    apply Qmult_lt_0_compat; [apply Qmult_lt_0_compat; [lra | reflexivity] | ].
    apply Qlt_shift_div_l; [reflexivity | lra]. }
  setoid_replace (w * (- turn fn * 10 * (l / 250)))
    with (- (w * (turn fn * 10 * (l / 250)))) in Hpos by ring.
  destruct mirror; cbv zeta in E; rewrite E; lra.
Qed.

Lemma turnOffsetQ_angled (fn : FlightNumbers Q) releaseAngle mirror (config : CanvasConfig Q) :
  turnOffsetQ fn releaseAngle mirror config
  == Qabs (angledTurnEffect releaseAngle (rawTurnEffect fn config)).
Proof.
  unfold turnOffsetQ, curve, turnEffect, mirrored; cbn [cp1X add neg Exact.arith].
  set (a := angledTurnEffect releaseAngle (rawTurnEffect fn config)).
  destruct mirror.
  - setoid_replace (startX config + - a - startX config) with (- a) by ring.
    apply Qabs_opp.
  - setoid_replace (startX config + a - startX config) with a by ring. reflexivity.
Qed.

Lemma rawTurnEffect_nonzero (fn : FlightNumbers Q) (config : CanvasConfig Q) :
  ~ turn fn == 0 -> ~ flightLength fn config == 0 -> ~ rawTurnEffect fn config == 0.
Proof.
  intros Ht Hl. unfold rawTurnEffect, effectScale; cbn [mul div lit Exact.arith].
  intros E. apply Qmult_integral in E. destruct E as [E | E].
  - apply Qmult_integral in E. destruct E as [E | E]; [now apply Ht | discriminate E].
  - apply Hl. setoid_replace (flightLength fn config)
      with (flightLength fn config / inject_Z 250 * inject_Z 250) by (field; discriminate).
    rewrite E. ring.
Qed.

Lemma exact_turn_ordering (fn : FlightNumbers Q) mirror (config : CanvasConfig Q) :
  ~ turn fn == 0 -> ~ flightLength fn config == 0 ->
  turnOffsetQ fn hyzer mirror config < turnOffsetQ fn flat mirror config
  /\ turnOffsetQ fn flat mirror config < turnOffsetQ fn anhyzer mirror config.
Proof.
  intros Ht Hl. rewrite !turnOffsetQ_angled.
  pose proof (Qabs_pos_of_nonzero _ (rawTurnEffect_nonzero fn config Ht Hl)) as Hpos.
  unfold angledTurnEffect; cbn [mul Exact.arith].
  rewrite !Qabs_Qmult, !decimal_exact.
  change (Qabs (5 # 10)) with (5 # 10). change (Qabs (16 # 10)) with (16 # 10).
  set (a := Qabs (rawTurnEffect fn config)) in *.
  split; lra.
Qed.

Lemma bounded_product (a b x y : Q) :
  - a <= x <= a -> 0 <= y <= b -> - (a * b) <= x * y <= a * b.
Proof. intros [Hx0 Hx1] [Hy0 Hy1]. split; nra. Qed.

Lemma default_flight_bounds (fn : FlightNumbers Q) :
  0 <= baseDistance fn + glideBonus fn ->
  0 <= flightLength fn DEFAULT_CONFIG / 250 <= 104 # 100.
Proof.
  intros He.
  assert (0 < maxDistance (DEFAULT_CONFIG : CanvasConfig Q)) as Hm by reflexivity.
  assert (20 <= startY (DEFAULT_CONFIG : CanvasConfig Q)) as Hy by (intros E; discriminate E).
  pose proof (flightLength_le_height fn DEFAULT_CONFIG Hm Hy) as Hle.
  pose proof (flightLength_nonneg fn DEFAULT_CONFIG Hm Hy He) as H0.
  assert (availableHeight (DEFAULT_CONFIG : CanvasConfig Q) == 260) as E by reflexivity.
  rewrite E in Hle. set (l := flightLength fn DEFAULT_CONFIG) in *.
  split.
  - apply Qle_shift_div_l; [reflexivity | lra].
  - apply Qle_shift_div_r; [reflexivity | lra].
Qed.

Lemma default_canvas_contains (fn : FlightNumbers Q) releaseAngle mirror :
  0 <= baseDistance fn + glideBonus fn ->
  - (5) <= turn fn <= 5 -> - (4) <= fade fn <= 4 ->
  let c := curve fn releaseAngle mirror DEFAULT_CONFIG in
  (0 <= cp1X c <= 200) /\ (0 <= cp2X c <= 200) /\ (0 <= endX c <= 200).
Proof.
  intros He Ht Hf c.
  destruct (effects_exact fn releaseAngle mirror DEFAULT_CONFIG) as (E1 & E2 & E3).
  fold c in E1, E2, E3. cbv zeta in E1, E2, E3.
  pose proof (default_flight_bounds fn He) as Hs.
  set (e := flightLength fn DEFAULT_CONFIG / 250) in *.
  pose proof (bounded_product 5 (104 # 100) (turn fn) e Ht Hs) as HT.
  pose proof (bounded_product 4 (104 # 100) (fade fn) e Hf Hs) as HF.
  assert (turn fn * 10 * e == 10 * (turn fn * e)) as ET by ring.
  assert (fade fn * 15 * e == 15 * (fade fn * e)) as EF by ring.
  set (T := turn fn * e) in *. set (F := fade fn * e) in *.
  set (TT := turn fn * 10 * e) in *. set (FF := fade fn * 15 * e) in *.
  change (startX (DEFAULT_CONFIG : CanvasConfig Q)) with 100 in E1, E2, E3.
  rewrite E1, E2, E3.
  destruct releaseAngle, mirror; repeat split; lra.
Qed.

Lemma estimatedDistance_glide_monotone (fn : FlightNumbers Q) (config : CanvasConfig Q) :
  estimatedDistance fn config <= estimatedDistance (oneMoreGlide fn) config.
Proof.
  unfold estimatedDistance, baseDistance, glideBonus, oneMoreGlide;
    cbn [min add mul lit Exact.arith speed glide].
  apply Q.min_le_compat_r.
  change (inject_Z 5) with 5. change (inject_Z 1) with 1. lra.
Qed.

Lemma flightLength_glide_monotone (fn : FlightNumbers Q) (config : CanvasConfig Q) :
  0 <= pixelsPerFoot config ->
  flightLength fn config <= flightLength (oneMoreGlide fn) config.
Proof.
  intros Hp. unfold flightLength; cbn [mul Exact.arith].
  apply Qmult_le_compat_r; [apply estimatedDistance_glide_monotone | assumption].
Qed.




End ExactGeometry.

(** ** Further lemmas: what the coordinates read, edge cases in doubles *)

Section Dependencies.

Context {num : Type} `{Arith num}.

(** The ordinates read [speed], [glide], [startY] and [maxDistance] only. *)
Lemma ordinates_read (fn1 fn2 : FlightNumbers num) (c1 c2 : CanvasConfig num)
      (a1 a2 : ReleaseAngle) (m1 m2 : bool) :
  speed fn1 = speed fn2 -> glide fn1 = glide fn2 ->
  startY c1 = startY c2 -> maxDistance c1 = maxDistance c2 ->
  let p := curve fn1 a1 m1 c1 in
  let q := curve fn2 a2 m2 c2 in
  originY p = originY q /\ cp1Y p = cp1Y q /\ cp2Y p = cp2Y q /\ endY p = endY q.
Proof.
  intros Hs Hg Hy Hm.
  unfold curve, arcHeight, effectScale, flightLength, estimatedDistance, baseDistance,
    glideBonus, pixelsPerFoot, availableHeight; cbn [originY cp1Y cp2Y endY].
  rewrite Hs, Hg, Hy, Hm. repeat split.
Qed.

(** The end point does not read [turn]; the first control point does not
    read [fade]. *)
Lemma endX_reads (fn1 fn2 : FlightNumbers num) releaseAngle mirror (config : CanvasConfig num) :
  speed fn1 = speed fn2 -> glide fn1 = glide fn2 -> fade fn1 = fade fn2 ->
  endX (curve fn1 releaseAngle mirror config) = endX (curve fn2 releaseAngle mirror config).
Proof.
  intros Hs Hg Hf.
  unfold curve, fadeEffect, rawFadeEffect, effectScale, flightLength, estimatedDistance,
    baseDistance, glideBonus; cbn [endX].
  now rewrite Hs, Hg, Hf.
Qed.

Lemma cp1X_reads (fn1 fn2 : FlightNumbers num) releaseAngle mirror (config : CanvasConfig num) :
  speed fn1 = speed fn2 -> glide fn1 = glide fn2 -> turn fn1 = turn fn2 ->
  cp1X (curve fn1 releaseAngle mirror config) = cp1X (curve fn2 releaseAngle mirror config).
Proof.
  intros Hs Hg Ht.
  unfold curve, turnEffect, rawTurnEffect, effectScale, flightLength, estimatedDistance,
    baseDistance, glideBonus; cbn [cp1X].
  now rewrite Hs, Hg, Ht.
Qed.

End Dependencies.

Module Binary64Edges.

Import Binary64Laws.

Lemma fmul_zero_l (x y : float) :
  is_zero x = true -> is_finite y = true -> is_zero (fmul x y) = true.
Proof. destruct x, y; cbn; congruence. Qed.

Lemma fneg_zero (x : float) : is_zero x = true -> is_zero (fneg x) = true.
Proof. now destruct x. Qed.

Lemma fadd_zero_r (x z : float) : is_zero x = false -> is_zero z = true -> fadd x z = x.
Proof. destruct x, z; cbn; congruence. Qed.

Lemma fsub_zero_r (x z : float) : is_zero x = false -> is_zero z = true -> fsub x z = x.
Proof. destruct x, z; cbn; congruence. Qed.

Lemma angled_zero (releaseAngle : ReleaseAngle) (x : float) :
  is_zero x = true ->
  is_zero (angledTurnEffect releaseAngle x) = true
  /\ is_zero (angledFadeEffect releaseAngle x) = true.
Proof.
  intros Hx. destruct releaseAngle; cbn [angledTurnEffect angledFadeEffect mul Binary64.arith];
    split; try assumption; now apply fmul_zero_l.
Qed.

Lemma turnEffect_zero (fn : FlightNumbers float) releaseAngle mirror (config : CanvasConfig float) :
  is_finite (effectScale fn config) = true -> is_zero (turn fn) = true ->
  is_zero (turnEffect fn releaseAngle mirror config) = true.
Proof.
  intros He Ht. unfold turnEffect, mirrored, rawTurnEffect; cbn [mul neg Binary64.arith].
  assert (is_zero (fmul (fmul (turn fn) (lit 10)) (effectScale fn config)) = true) as Hz.
  { apply fmul_zero_l; [ | assumption]. now apply fmul_zero_l. }
  destruct (angled_zero releaseAngle _ Hz) as [Ha _].
  destruct mirror; [now apply fneg_zero | assumption].
Qed.

Lemma fadeEffect_zero (fn : FlightNumbers float) releaseAngle mirror (config : CanvasConfig float) :
  is_finite (effectScale fn config) = true -> is_zero (fade fn) = true ->
  is_zero (fadeEffect fn releaseAngle mirror config) = true.
Proof.
  intros He Hf. unfold fadeEffect, mirrored, rawFadeEffect; cbn [mul neg Binary64.arith].
  assert (is_zero (fmul (fmul (fade fn) (lit 15)) (effectScale fn config)) = true) as Hz.
  { apply fmul_zero_l; [ | assumption]. now apply fmul_zero_l. }
  destruct (angled_zero releaseAngle _ Hz) as [_ Ha].
  destruct mirror; [now apply fneg_zero | assumption].
Qed.

Lemma zero_fade_ends_above_origin (fn : FlightNumbers float) releaseAngle mirror
      (config : CanvasConfig float) :
  is_finite (effectScale fn config) = true -> is_zero (startX config) = false ->
  is_zero (fade fn) = true ->
  endX (curve fn releaseAngle mirror config) = startX config.
Proof.
  intros He Hx Hf. unfold curve; cbn [endX sub Binary64.arith].
  apply fsub_zero_r; [assumption | now apply fadeEffect_zero].
Qed.

Lemma zero_turn_starts_straight (fn : FlightNumbers float) releaseAngle mirror
      (config : CanvasConfig float) :
  is_finite (effectScale fn config) = true -> is_zero (startX config) = false ->
  is_zero (turn fn) = true ->
  cp1X (curve fn releaseAngle mirror config) = startX config.
Proof.
  intros He Hx Ht. unfold curve; cbn [cp1X add Binary64.arith].
  apply fadd_zero_r; [assumption | now apply turnEffect_zero].
Qed.

Lemma zero_turn_fade_apex (fn : FlightNumbers float) releaseAngle mirror
      (config : CanvasConfig float) :
  is_finite (effectScale fn config) = true -> is_zero (startX config) = false ->
  is_zero (turn fn) = true -> is_zero (fade fn) = true ->
  cp2X (curve fn releaseAngle mirror config) = startX config.
Proof.
  intros He Hx Ht Hf. unfold curve; cbn [cp2X add sub mul Binary64.arith].
  rewrite (fadd_zero_r (startX config)); [ | assumption | ].
  - apply fsub_zero_r; [assumption | ].
    apply fmul_zero_l; [now apply fadeEffect_zero | reflexivity].
  - apply fmul_zero_l; [now apply turnEffect_zero | reflexivity].
Qed.

Lemma curve_eta (c : Curve float) :
  c = {| originX := originX c; originY := originY c; cp1X := cp1X c; cp1Y := cp1Y c;
         cp2X := cp2X c; cp2Y := cp2Y c; endX := endX c; endY := endY c |}.
Proof. now destruct c. Qed.

Lemma straight_curve (fn : FlightNumbers float) releaseAngle mirror (config : CanvasConfig float) :
  is_finite (effectScale fn config) = true -> is_zero (startX config) = false ->
  is_zero (turn fn) = true -> is_zero (fade fn) = true ->
  curve fn releaseAngle mirror config
  = {| originX := startX config; originY := startY config;
       cp1X := startX config; cp1Y := cp1Y (curve fn flat false config);
       cp2X := startX config; cp2Y := cp2Y (curve fn flat false config);
       endX := startX config; endY := endY (curve fn flat false config) |}.
Proof.
  intros He Hx Ht Hf.
  etransitivity; [apply curve_eta | ].
  rewrite (zero_fade_ends_above_origin fn releaseAngle mirror config He Hx Hf).
  rewrite (zero_turn_starts_straight fn releaseAngle mirror config He Hx Ht).
  rewrite (zero_turn_fade_apex fn releaseAngle mirror config He Hx Ht Hf).
  reflexivity.
Qed.

(** Beyond the cap the flight length is the same for every speed. *)
Lemma capped_curves_agree (fn1 fn2 : FlightNumbers float) releaseAngle mirror
      (config : CanvasConfig float) :
  glide fn1 = glide fn2 -> turn fn1 = turn fn2 -> fade fn1 = fade fn2 ->
  ltb (maxDistance config) (fadd (baseDistance fn1) (glideBonus fn1)) = true ->
  ltb (maxDistance config) (fadd (baseDistance fn2) (glideBonus fn2)) = true ->
  curve fn1 releaseAngle mirror config = curve fn2 releaseAngle mirror config.
Proof.
  intros Hg Ht Hf H1 H2.
  assert (flightLength fn1 config = flightLength fn2 config) as El
    by now rewrite !flightLength_capped64.
  unfold curve, turnEffect, fadeEffect, rawTurnEffect, rawFadeEffect, arcHeight, effectScale.
  now rewrite El, Hg, Ht, Hf.
Qed.

(** A NaN turn or fade reaches the abscissas it is added to, and no other
    coordinate. *)
Lemma nan_turn_abscissas (fn : FlightNumbers float) releaseAngle mirror (config : CanvasConfig float) :
  is_nan (turn fn) = true ->
  cp1X (curve fn releaseAngle mirror config) = NaN
  /\ cp2X (curve fn releaseAngle mirror config) = NaN.
Proof.
  intros Ht. apply is_nan_eq in Ht.
  unfold curve, turnEffect, mirrored, angledTurnEffect, rawTurnEffect;
    cbn [cp1X cp2X add sub mul neg Binary64.arith].
  rewrite Ht. destruct releaseAngle, mirror; cbn; now rewrite ?fadd_NaN_r.
Qed.

Lemma nan_fade_abscissas (fn : FlightNumbers float) releaseAngle mirror (config : CanvasConfig float) :
  is_nan (fade fn) = true ->
  endX (curve fn releaseAngle mirror config) = NaN
  /\ cp2X (curve fn releaseAngle mirror config) = NaN.
Proof.
  intros Hf. apply is_nan_eq in Hf.
  unfold curve, fadeEffect, mirrored, angledFadeEffect, rawFadeEffect;
    cbn [endX cp2X add sub mul neg Binary64.arith].
  rewrite Hf. destruct releaseAngle, mirror; cbn; now rewrite ?fsub_NaN_r.
Qed.

End Binary64Edges.

(** ** Further finite checks over the normal range *)

Module Binary64Ranges.
Import Binary64Laws.


Lemma glide_monotone_on_range :
  forallb (fun s => forallb (fun g => glideMonotoneAt s g) (zrange 1 7)) (zrange 1 15) = true.
Proof. vm_compute. reflexivity. Qed.

Lemma turn_ordered_on_range :
  let half : float := decimal 5 10 in
  let sixteenTenths : float := decimal 16 10 in
  forallb (fun s => forallb (fun g =>
    let scale := effectScale (disc s g (of_Z 0) (of_Z 0)) DEFAULT_CONFIG in
    forallb (fun t =>
      (t =? 0)%Z || (turnOrderedFrom half sixteenTenths scale t false
                     && turnOrderedFrom half sixteenTenths scale t true))
      (zrange (-5) 7)) (zrange 1 7)) (zrange 1 15) = true.
Proof. vm_compute. reflexivity. Qed.

Lemma turnOffset_from (s g t : Z) (f : float) releaseAngle mirror :
  turnOffset (disc s g (of_Z t) f) releaseAngle mirror DEFAULT_CONFIG
  = turnOffsetFrom (effectScale (disc s g (of_Z 0) (of_Z 0)) DEFAULT_CONFIG)
      (turnWeight releaseAngle) t mirror.
Proof. now destruct releaseAngle. Qed.

Lemma turn_ordered_at (s g t : Z) (f : float) (mirror : bool) :
  (1 <= s <= 15)%Z -> (1 <= g <= 7)%Z -> (-5 <= t <= 1)%Z -> t <> 0%Z ->
  ltb (turnOffset (disc s g (of_Z t) f) hyzer mirror DEFAULT_CONFIG)
      (turnOffset (disc s g (of_Z t) f) flat mirror DEFAULT_CONFIG) = true
  /\ ltb (turnOffset (disc s g (of_Z t) f) flat mirror DEFAULT_CONFIG)
         (turnOffset (disc s g (of_Z t) f) anhyzer mirror DEFAULT_CONFIG) = true.
Proof.
  intros Hs Hg Ht Hnz. rewrite !turnOffset_from. cbn [turnWeight].
  pose proof turn_ordered_on_range as H0. cbv zeta in H0.
  pose proof (forallb_zrange _ _ _ H0 s ltac:(lia)) as H1. cbv beta in H1.
  pose proof (forallb_zrange _ _ _ H1 g ltac:(lia)) as H2. cbv beta in H2.
  pose proof (forallb_zrange _ _ _ H2 t ltac:(lia)) as H3. cbv beta in H3.
  apply orb_prop in H3. destruct H3 as [H3 | H3]; [apply Z.eqb_eq in H3; contradiction | ].
  apply andb_prop in H3. destruct H3 as [Hf Hm].
  apply andb_prop. destruct mirror; assumption.
Qed.


Lemma glide_monotone_at (s g : Z) (t f : float) :
  (1 <= s <= 15)%Z -> (1 <= g <= 7)%Z ->
  let fn := disc s g t f in
  leb (estimatedDistance fn DEFAULT_CONFIG)
      (estimatedDistance (oneMoreGlide fn) DEFAULT_CONFIG) = true
  /\ leb (flightLength fn DEFAULT_CONFIG)
         (flightLength (oneMoreGlide fn) DEFAULT_CONFIG) = true.
Proof.
  intros Hs Hg fn.
  pose proof (forallb_zrange _ _ _ glide_monotone_on_range s ltac:(lia)) as H1. cbv beta in H1.
  pose proof (forallb_zrange _ _ _ H1 g ltac:(lia)) as H2. cbv beta in H2.
  apply andb_prop in H2. exact H2.
Qed.

Lemma swept_on_range :
  let half : float := decimal 5 10 in
  let threeTenths : float := decimal 3 10 in
  let weights := map (fun a => (turnWeight a, fadeWeight a)) [hyzer; flat; anhyzer] in
  forallb (fun s => forallb (fun g =>
    let scale := effectScale (disc s g (of_Z 0) (of_Z 0)) DEFAULT_CONFIG in
    forallb (fun w => forallb (fun mirror =>
      let fades :=
        map (fun f => (f, fadeSide scale (snd w) threeTenths mirror f)) (zrange 0 6) in
      forallb (fun t =>
        let turns := turnSide scale (fst w) half mirror t in
        forallb (fun ff => sweptAt (abscissasOf turns (snd ff)) t (fst ff) mirror) fades)
        (zrange (-5) 7))
      [false; true]) weights) (zrange 1 7)) (zrange 1 15) = true.
Proof. vm_compute. reflexivity. Qed.

Lemma abscissas_from (s g t f : Z) releaseAngle mirror :
  let c := curve (disc s g (of_Z t) (of_Z f)) releaseAngle mirror DEFAULT_CONFIG in
  let scale := effectScale (disc s g (of_Z 0) (of_Z 0)) DEFAULT_CONFIG in
  (cp1X c, cp2X c, endX c)
  = abscissasOf (turnSide scale (turnWeight releaseAngle) (decimal 5 10) mirror t)
                (fadeSide scale (fadeWeight releaseAngle) (decimal 3 10) mirror f).
Proof. now destruct releaseAngle. Qed.

Lemma zrange_In (n : nat) :
  forall lo z, (lo <= z < lo + Z.of_nat n)%Z -> In z (zrange lo n).
Proof.
  induction n as [| n IH]; intros lo z Hz; cbn [zrange].
  - lia.
  - destruct (Z.eq_dec z lo) as [-> | Hne]; [now left | right].
    apply IH. lia.
Qed.

Lemma swept_at (s g t f : Z) releaseAngle (mirror : bool) :
  (1 <= s <= 15)%Z -> (1 <= g <= 7)%Z -> (-5 <= t <= 1)%Z -> (0 <= f <= 5)%Z ->
  let c := curve (disc s g (of_Z t) (of_Z f)) releaseAngle mirror DEFAULT_CONFIG in
  sweptAt (cp1X c, cp2X c, endX c) t f mirror = true.
Proof.
  intros Hs Hg Ht Hf c. subst c. rewrite abscissas_from.
  assert (In releaseAngle [hyzer; flat; anhyzer]) as Hangle
    by (destruct releaseAngle; cbn; auto).
  assert (In mirror [false; true]) as Hmirror by (destruct mirror; cbn; auto).
  assert (In f (zrange 0 6)) as Hfade by (apply zrange_In; lia).
  pose proof swept_on_range as H0. cbv zeta in H0.
  pose proof (forallb_zrange _ _ _ H0 s ltac:(lia)) as H1. cbv beta in H1.
  pose proof (forallb_zrange _ _ _ H1 g ltac:(lia)) as H2. cbv beta in H2.
  rewrite forallb_forall in H2.
  specialize (H2 _ (in_map (fun a => (turnWeight a, fadeWeight a)) _ _ Hangle)).
  cbn [fst snd] in H2. rewrite forallb_forall in H2.
  specialize (H2 mirror Hmirror).
  pose proof (forallb_zrange _ _ _ H2 t ltac:(lia)) as H3. cbv beta in H3.
  rewrite forallb_forall in H3.
  set (scale := effectScale (disc s g (of_Z 0) (of_Z 0)) DEFAULT_CONFIG) in *.
  exact (H3 _ (in_map (fun f => (f, fadeSide scale (fadeWeight releaseAngle)
                                     (decimal 3 10) mirror f)) _ _ Hfade)).
Qed.

Lemma width_kept_at (s g t f : Z) releaseAngle (mirror : bool) :
  (1 <= s <= 15)%Z -> (1 <= g <= 7)%Z -> (-5 <= t <= 1)%Z -> (0 <= f <= 4)%Z ->
  let c := curve (disc s g (of_Z t) (of_Z f)) releaseAngle mirror DEFAULT_CONFIG in
  insideWidth (cp1X c) = true /\ insideWidth (cp2X c) = true /\ insideWidth (endX c) = true.
Proof.
  intros Hs Hg Ht Hf c.
  pose proof (swept_at s g t f releaseAngle mirror Hs Hg Ht ltac:(lia)) as H.
  fold c in H. unfold sweptAt in H.
  apply andb_prop in H. destruct H as [H _]. apply andb_prop in H. destruct H as [H _].
  apply orb_prop in H. destruct H as [H | H]; [apply Z.ltb_lt in H; lia | ].
  apply andb_prop in H. destruct H as [H H3]. apply andb_prop in H. tauto.
Qed.

Lemma direction_at (s g t f : Z) releaseAngle (mirror : bool) :
  (1 <= s <= 15)%Z -> (1 <= g <= 7)%Z -> (-5 <= t <= 1)%Z -> (0 <= f <= 5)%Z ->
  let c := curve (disc s g (of_Z t) (of_Z f)) releaseAngle mirror DEFAULT_CONFIG in
  ((1 <= f)%Z -> (if mirror then ltb (of_Z 100) (endX c) else ltb (endX c) (of_Z 100)) = true)
  /\ ((t <= -1)%Z ->
      (if mirror then ltb (of_Z 100) (cp1X c) else ltb (cp1X c) (of_Z 100)) = true).
Proof.
  intros Hs Hg Ht Hf c.
  pose proof (swept_at s g t f releaseAngle mirror Hs Hg Ht Hf) as H.
  fold c in H. unfold sweptAt in H.
  apply andb_prop in H. destruct H as [H Hturn]. apply andb_prop in H. destruct H as [_ Hfade].
  split; intros Hsign.
  - apply orb_prop in Hfade. destruct Hfade as [Hfade | Hfade];
      [apply Z.ltb_lt in Hfade; lia | exact Hfade].
  - apply orb_prop in Hturn. destruct Hturn as [Hturn | Hturn];
      [apply Z.ltb_lt in Hturn; lia | exact Hturn].
Qed.

End Binary64Ranges.

Import ExactGeometry Binary64Edges Binary64Ranges.


(** * Further laws of the engine *)

(** ** What each coordinate reads *)

(** X1. The start point and the three ordinates of a curve do not depend on
    the throw type, the release angle, the turn or the fade: they are read
    off speed, glide and the canvas alone, whatever the arithmetic. *)
Theorem ordinates_ignore_throw_and_curvature {num : Type} `{Arith num}
        (fn : FlightNumbers num) (t f : num) (throw1 throw2 : ThrowType)
        (angle1 angle2 : ReleaseAngle) (config : option (CanvasConfig num)) :
  let p := curveOf (withFade f (withTurn t fn)) throw1 config angle1 in
  let q := curveOf fn throw2 config angle2 in
  originX p = originX q /\ originY p = originY q
  /\ cp1Y p = cp1Y q /\ cp2Y p = cp2Y q /\ endY p = endY q.
Proof.
  intros p q. split; [reflexivity | ].
  apply ordinates_read; reflexivity.
Qed.

(** X2. The end point's abscissa does not depend on the turn, and the
    first control point's abscissa does not depend on the fade, whatever the
    arithmetic. *)
Theorem abscissas_ignore_the_other_effect {num : Type} `{Arith num}
        (fn : FlightNumbers num) (t f : num) (throwType : ThrowType)
        (releaseAngle : ReleaseAngle) (config : option (CanvasConfig num)) :
  endX (curveOf (withTurn t fn) throwType config releaseAngle)
  = endX (curveOf fn throwType config releaseAngle)
  /\ cp1X (curveOf (withFade f fn) throwType config releaseAngle)
     = cp1X (curveOf fn throwType config releaseAngle).
Proof.
  unfold curveOf. split; [apply endX_reads | apply cp1X_reads]; reflexivity.
Qed.

(** ** The curve and the canvas *)



(** X4. Horizontal containment on the default canvas.  Over exact
    arithmetic, for a non-negative uncapped estimate, a turn between -5 and
    5 and a fade between -4 and 4, the two control points and the end point
    of every curve have abscissas between 0 and the canvas width 200.  In
    doubles the same holds for all integer speeds 1..15, glides 1..7, turns
    -5..1 and fades 0..4. *)
Theorem default_canvas_width_kept :
  (forall (fn : FlightNumbers Q) throwType releaseAngle,
      0 <= baseDistance fn + glideBonus fn ->
      - (5) <= turn fn <= 5 -> - (4) <= fade fn <= 4 ->
      let c := curveOf fn throwType None releaseAngle in
      (0 <= cp1X c <= 200) /\ (0 <= cp2X c <= 200) /\ (0 <= endX c <= 200))%Q
  /\ (forall (s g t f : Z) throwType releaseAngle,
      (1 <= s <= 15)%Z -> (1 <= g <= 7)%Z -> (-5 <= t <= 1)%Z -> (0 <= f <= 4)%Z ->
      let c := curveOf (disc s g (of_Z t) (of_Z f)) throwType None releaseAngle in
      insideWidth (cp1X c) = true /\ insideWidth (cp2X c) = true
      /\ insideWidth (endX c) = true).
Proof.
  split.
  - intros fn throwType releaseAngle He Ht Hf.
    now apply default_canvas_contains.
  - intros s g t f throwType releaseAngle Hs Hg Ht Hf.
    now apply width_kept_at.
Qed.

(** The standard disc, backhand hyzer and forehand anhyzer. *)
Lemma default_canvas_width_kept_witness :
  let standard : FlightNumbers Q := standardFlightNumbers in
  ((0 <= baseDistance standard + glideBonus standard
    /\ (- (5) <= turn standard <= 5) /\ (- (4) <= fade standard <= 4))
   /\ 0 <= endX (curveOf standard rhbh None hyzer) <= 200)%Q
  /\ insideWidth (endX (curveOf (disc 12 5 (of_Z (-1)) (of_Z 3)) rhfh None anhyzer)) = true.
Proof.
  intros standard.
  destruct default_canvas_width_kept as [HQ HD].
  assert ((0 <= baseDistance standard + glideBonus standard)%Q) as He
    by (intros E; discriminate E).
  assert ((- (5) <= turn standard <= 5)%Q) as Ht by (split; intros E; discriminate E).
  assert ((- (4) <= fade standard <= 4)%Q) as Hf by (split; intros E; discriminate E).
  split; [split; [repeat split; (apply Ht || apply Hf || exact He) | ] | ].
  - exact (proj2 (proj2 (HQ standard rhbh hyzer He Ht Hf))).
  - apply (HD 12 5 (-1) 3 rhfh anhyzer)%Z; lia.
Defined.

(** X5. Sides.  Over exact arithmetic and for a positive flight length, a
    positive fade puts the end point at a smaller abscissa than the origin
    for ['rhbh'] and ['lhfh'] and at a larger one for ['rhfh'] and ['lhbh'];
    a negative turn does the same to the first control point.  This holds
    for every release angle.  In doubles it holds on the default canvas for
    all integer speeds 1..15, glides 1..7, turns -5..1 and fades 0..5. *)
Theorem fade_and_turn_sides :
  (forall (fn : FlightNumbers Q) (config : CanvasConfig Q) throwType releaseAngle,
      0 < flightLength fn config ->
      let c := curveOf fn throwType (Some config) releaseAngle in
      (0 < fade fn ->
       if shouldMirror throwType return Prop
       then startX config < endX c else endX c < startX config)
      /\ (turn fn < 0 ->
          if shouldMirror throwType return Prop
          then startX config < cp1X c else cp1X c < startX config))%Q
  /\ (forall (s g t f : Z) throwType releaseAngle,
      (1 <= s <= 15)%Z -> (1 <= g <= 7)%Z -> (-5 <= t <= 1)%Z -> (0 <= f <= 5)%Z ->
      let c := curveOf (disc s g (of_Z t) (of_Z f)) throwType None releaseAngle in
      ((1 <= f)%Z ->
       (if shouldMirror throwType
        then ltb (of_Z 100) (endX c) else ltb (endX c) (of_Z 100)) = true)
      /\ ((t <= -1)%Z ->
          (if shouldMirror throwType
           then ltb (of_Z 100) (cp1X c) else ltb (cp1X c) (of_Z 100)) = true)).
Proof.
  split.
  - intros fn config throwType releaseAngle Hl c. split; intros Hsign.
    + now apply fade_direction.
    + now apply turn_direction.
  - intros s g t f throwType releaseAngle Hs Hg Ht Hf.
    now apply direction_at.
Qed.

(** The standard disc (turn -1, fade 3), thrown backhand: the first control
    point and the end point are both at smaller abscissas than the origin. *)
Lemma fade_and_turn_sides_witness :
  let standard : FlightNumbers Q := standardFlightNumbers in
  let c := curveOf standard rhbh (Some DEFAULT_CONFIG) flat in
  ((0 < flightLength standard DEFAULT_CONFIG /\ 0 < fade standard /\ turn standard < 0)
   /\ endX c < 100 /\ cp1X c < 100)%Q
  /\ ltb (endX (curveOf (disc 12 5 (of_Z (-1)) (of_Z 3)) rhbh None flat)) (of_Z 100) = true
  /\ ltb (of_Z 100) (cp1X (curveOf (disc 12 5 (of_Z (-1)) (of_Z 3)) rhfh None flat)) = true.
Proof.
  intros standard c.
  destruct fade_and_turn_sides as [HQ HD].
  assert ((0 < flightLength standard DEFAULT_CONFIG)%Q) as Hl by reflexivity.
  assert ((0 < fade standard)%Q) as Hf by reflexivity.
  assert ((turn standard < 0)%Q) as Ht by reflexivity.
  destruct (HQ standard DEFAULT_CONFIG rhbh flat Hl) as [H1 H2].
  split; [split; [repeat split; assumption | split; [exact (H1 Hf) | exact (H2 Ht)]] | ].
  split.
  - apply (proj1 (HD 12 5 (-1) 3 rhbh flat ltac:(lia) ltac:(lia) ltac:(lia) ltac:(lia))
             ltac:(lia))%Z.
  - apply (proj2 (HD 12 5 (-1) 3 rhfh flat ltac:(lia) ltac:(lia) ltac:(lia) ltac:(lia))
             ltac:(lia))%Z.
Defined.


(** ** Edge cases in double precision *)

(** X6. Straight flights.  In doubles, when the effect scale is finite and
    [startX] is not a zero: a zero fade ends the curve exactly above the
    origin, a zero turn leaves the first control point exactly above the
    origin, and with both zero the second control point is there too, so
    that the four throw types and the three release angles all return one
    and the same path. *)
Theorem straight_flight (toString : float -> string) (fn : FlightNumbers float)
        (config : CanvasConfig float) :
  is_finite (effectScale fn config) = true -> is_zero (startX config) = false ->
  (is_zero (fade fn) = true ->
   forall throwType releaseAngle,
     endX (curveOf fn throwType (Some config) releaseAngle) = startX config)
  /\ (is_zero (turn fn) = true ->
      forall throwType releaseAngle,
        cp1X (curveOf fn throwType (Some config) releaseAngle) = startX config)
  /\ (is_zero (turn fn) = true -> is_zero (fade fn) = true ->
      (forall throwType releaseAngle,
          cp2X (curveOf fn throwType (Some config) releaseAngle) = startX config)
      /\ (forall throw1 throw2,
             calculateFlightPath toString fn throw1 (Some config)
             = calculateFlightPath toString fn throw2 (Some config))
      /\ (forall throwType,
             let paths := calculateFlightPath toString fn throwType (Some config) in
             hyzerPath paths = flatPath paths /\ anhyzerPath paths = flatPath paths)).
Proof.
  intros He Hx. split; [ | split].
  - intros Hf throwType releaseAngle. now apply zero_fade_ends_above_origin.
  - intros Ht throwType releaseAngle. now apply zero_turn_starts_straight.
  - intros Ht Hf.
    assert (forall releaseAngle mirror,
               curve fn releaseAngle mirror config = curve fn flat false config) as Hsame.
    { intros releaseAngle mirror.
      rewrite (straight_curve fn releaseAngle mirror config He Hx Ht Hf).
      symmetry. now apply straight_curve. }
    split; [ | split].
    + intros throwType releaseAngle. now apply zero_turn_fade_apex.
    + intros throw1 throw2. unfold calculateFlightPath, generatePath.
      rewrite (Hsame hyzer (shouldMirror throw1)), (Hsame flat (shouldMirror throw1)),
        (Hsame anhyzer (shouldMirror throw1)).
      now rewrite (Hsame hyzer (shouldMirror throw2)), (Hsame flat (shouldMirror throw2)),
        (Hsame anhyzer (shouldMirror throw2)).
    + intros throwType paths. subst paths.
      unfold calculateFlightPath, generatePath; cbn [hyzerPath flatPath anhyzerPath].
      now rewrite (Hsame hyzer (shouldMirror throwType)),
        (Hsame flat (shouldMirror throwType)), (Hsame anhyzer (shouldMirror throwType)).
Qed.

(** A disc with neither turn nor fade on the default canvas. *)
Lemma straight_flight_witness :
  let neutral : FlightNumbers float := disc 12 5 (of_Z 0) (of_Z 0) in
  (is_finite (effectScale neutral DEFAULT_CONFIG) = true
   /\ is_zero (startX (DEFAULT_CONFIG : CanvasConfig float)) = false
   /\ is_zero (turn neutral) = true /\ is_zero (fade neutral) = true)
  /\ cp2X (curveOf neutral lhbh (Some DEFAULT_CONFIG) anhyzer) = of_Z 100
  /\ calculateFlightPath to_string neutral rhbh (Some DEFAULT_CONFIG)
     = calculateFlightPath to_string neutral rhfh (Some DEFAULT_CONFIG).
Proof.
  intros neutral.
  assert (is_finite (effectScale neutral DEFAULT_CONFIG) = true) as He by reflexivity.
  assert (is_zero (startX (DEFAULT_CONFIG : CanvasConfig float)) = false) as Hx by reflexivity.
  assert (is_zero (turn neutral) = true) as Ht by reflexivity.
  assert (is_zero (fade neutral) = true) as Hf by reflexivity.
  destruct (straight_flight to_string neutral DEFAULT_CONFIG He Hx) as (_ & _ & H).
  destruct (H Ht Hf) as (H2 & Hsame & _).
  split; [repeat split; assumption | split].
  - exact (H2 lhbh anhyzer).
  - exact (Hsame rhbh rhfh).
Defined.

(** X7. Beyond the cap the speed is irrelevant.  In doubles, two discs with
    the same glide, turn and fade whose uncapped estimates both exceed
    [maxDistance] return the same [FlightPaths], for every throw type and
    canvas; an infinite speed is such a disc. *)
Theorem speed_irrelevant_beyond_cap (toString : float -> string)
        (fn1 fn2 : FlightNumbers float) (throwType : ThrowType)
        (config : CanvasConfig float) :
  glide fn1 = glide fn2 -> turn fn1 = turn fn2 -> fade fn1 = fade fn2 ->
  ltb (maxDistance config) (fadd (baseDistance fn1) (glideBonus fn1)) = true ->
  ltb (maxDistance config) (fadd (baseDistance fn2) (glideBonus fn2)) = true ->
  calculateFlightPath toString fn1 throwType (Some config)
  = calculateFlightPath toString fn2 throwType (Some config).
Proof.
  intros Hg Ht Hf H1 H2. unfold calculateFlightPath, generatePath.
  now rewrite !(capped_curves_agree fn1 fn2 _ _ config Hg Ht Hf H1 H2).
Qed.

(** Speed 13 and an infinite speed, both with glide 5, turn -1 and fade 3,
    on the default canvas. *)
Lemma speed_irrelevant_beyond_cap_witness :
  let fast : FlightNumbers float := disc 13 5 (of_Z (-1)) (of_Z 3) in
  let unbounded : FlightNumbers float :=
    {| speed := S754_infinity false; glide := of_Z 5; turn := of_Z (-1); fade := of_Z 3 |} in
  (ltb (maxDistance DEFAULT_CONFIG) (fadd (baseDistance fast) (glideBonus fast)) = true
   /\ ltb (maxDistance DEFAULT_CONFIG)
          (fadd (baseDistance unbounded) (glideBonus unbounded)) = true)
  /\ calculateFlightPath to_string fast rhbh (Some DEFAULT_CONFIG)
     = calculateFlightPath to_string unbounded rhbh (Some DEFAULT_CONFIG).
Proof.
  intros fast unbounded.
  assert (ltb (maxDistance DEFAULT_CONFIG) (fadd (baseDistance fast) (glideBonus fast))
          = true) as H1 by reflexivity.
  assert (ltb (maxDistance DEFAULT_CONFIG)
              (fadd (baseDistance unbounded) (glideBonus unbounded)) = true) as H2
    by reflexivity.
  split; [split; assumption | ].
  exact (speed_irrelevant_beyond_cap to_string fast unbounded rhbh DEFAULT_CONFIG
           eq_refl eq_refl eq_refl H1 H2).
Defined.

(** X8. A NaN turn or fade stays local.  In doubles, a NaN turn makes the
    abscissas of both control points NaN and leaves the end point and every
    ordinate as they are for turn 0; a NaN fade makes the abscissas of the
    end point and of the second control point NaN and leaves the first
    control point and every ordinate as they are for fade 0. *)
Theorem nan_turn_or_fade_is_local (fn : FlightNumbers float) (throwType : ThrowType)
        (config : option (CanvasConfig float)) (releaseAngle : ReleaseAngle) :
  let c := curveOf fn throwType config releaseAngle in
  (is_nan (turn fn) = true ->
   let c0 := curveOf (withTurn (of_Z 0) fn) throwType config releaseAngle in
   (cp1X c = NaN /\ cp2X c = NaN)
   /\ endX c = endX c0
   /\ (cp1Y c = cp1Y c0 /\ cp2Y c = cp2Y c0 /\ endY c = endY c0))
  /\ (is_nan (fade fn) = true ->
      let c0 := curveOf (withFade (of_Z 0) fn) throwType config releaseAngle in
      (endX c = NaN /\ cp2X c = NaN)
      /\ cp1X c = cp1X c0
      /\ (cp1Y c = cp1Y c0 /\ cp2Y c = cp2Y c0 /\ endY c = endY c0)).
Proof.
  intros c. split; intros Hnan c0.
  - split; [now apply nan_turn_abscissas | ].
    split; [apply endX_reads; reflexivity | ].
    apply (ordinates_read fn (withTurn (of_Z 0) fn)); reflexivity.
  - split; [now apply nan_fade_abscissas | ].
    split; [apply cp1X_reads; reflexivity | ].
    apply (ordinates_read fn (withFade (of_Z 0) fn)); reflexivity.
Qed.

(** The standard disc with its turn, then its fade, replaced by NaN. *)
Lemma nan_turn_or_fade_is_local_witness :
  let nanTurn : FlightNumbers float := withTurn NaN standardFlightNumbers in
  let nanFade : FlightNumbers float := withFade NaN standardFlightNumbers in
  (is_nan (turn nanTurn) = true /\ is_nan (fade nanFade) = true)
  /\ (cp1X (curveOf nanTurn rhbh None flat) = NaN
      /\ endX (curveOf nanTurn rhbh None flat)
         = endX (curveOf (standardFlightNumbers : FlightNumbers float) rhbh None flat))
  /\ (endX (curveOf nanFade rhbh None flat) = NaN
      /\ cp1X (curveOf nanFade rhbh None flat)
         = cp1X (curveOf (standardFlightNumbers : FlightNumbers float) rhbh None flat)).
Proof.
  intros nanTurn nanFade.
  assert (is_nan (turn nanTurn) = true) as Ht by reflexivity.
  assert (is_nan (fade nanFade) = true) as Hf by reflexivity.
  split; [split; assumption | split].
  - destruct (proj1 (nan_turn_or_fade_is_local nanTurn rhbh None flat) Ht)
      as ((H1 & _) & H2 & _).
    split; [exact H1 | ]. rewrite H2. apply endX_reads; reflexivity.
  - destruct (proj2 (nan_turn_or_fade_is_local nanFade rhbh None flat) Hf)
      as ((H1 & _) & H2 & _).
    split; [exact H1 | ]. rewrite H2. apply cp1X_reads; reflexivity.
Defined.

(** ** Orderings and steps *)

(** X9. Release-angle ordering of the turn.  Over exact arithmetic, for a
    nonzero turn and a nonzero flight length, the turn offset
    [|cp1X - startX|] of the hyzer path is strictly less than that of the
    flat path, and that of the anhyzer path strictly greater.  In doubles
    the same holds on the default canvas for every throw type and all
    integer speeds 1..15, glides 1..7 and nonzero turns -5..1. *)
Theorem turn_offset_ordering :
  (forall (fn : FlightNumbers Q) (config : CanvasConfig Q) throwType,
      ~ turn fn == 0 -> ~ flightLength fn config == 0 ->
      turnOffsetQ fn hyzer (shouldMirror throwType) config
      < turnOffsetQ fn flat (shouldMirror throwType) config
      /\ turnOffsetQ fn flat (shouldMirror throwType) config
         < turnOffsetQ fn anhyzer (shouldMirror throwType) config)%Q
  /\ (forall (s g t : Z) (f : float) throwType,
      (1 <= s <= 15)%Z -> (1 <= g <= 7)%Z -> (-5 <= t <= 1)%Z -> t <> 0%Z ->
      let fn := disc s g (of_Z t) f in
      ltb (turnOffset fn hyzer (shouldMirror throwType) DEFAULT_CONFIG)
          (turnOffset fn flat (shouldMirror throwType) DEFAULT_CONFIG) = true
      /\ ltb (turnOffset fn flat (shouldMirror throwType) DEFAULT_CONFIG)
             (turnOffset fn anhyzer (shouldMirror throwType) DEFAULT_CONFIG) = true).
Proof.
  split.
  - intros fn config throwType Ht Hl. now apply exact_turn_ordering.
  - intros s g t f throwType Hs Hg Ht Hnz. now apply turn_ordered_at.
Qed.

(** The standard disc on the default canvas, over both arithmetics. *)
Lemma turn_offset_ordering_witness :
  let standard : FlightNumbers Q := standardFlightNumbers in
  ((~ turn standard == 0 /\ ~ flightLength standard DEFAULT_CONFIG == 0)
   /\ turnOffsetQ standard hyzer false DEFAULT_CONFIG
      < turnOffsetQ standard flat false DEFAULT_CONFIG
   /\ turnOffsetQ standard flat false DEFAULT_CONFIG
      < turnOffsetQ standard anhyzer false DEFAULT_CONFIG)%Q
  /\ ltb (turnOffset (disc 12 5 (of_Z (-1)) (of_Z 3)) flat true DEFAULT_CONFIG)
         (turnOffset (disc 12 5 (of_Z (-1)) (of_Z 3)) anhyzer true DEFAULT_CONFIG) = true.
Proof.
  intros standard.
  destruct turn_offset_ordering as [HQ HD].
  assert (~ (turn standard == 0)%Q) as Ht by (intros E; discriminate E).
  assert (~ (flightLength standard DEFAULT_CONFIG == 0)%Q) as Hl
    by (intros E; vm_compute in E; discriminate E).
  split; [split; [split; assumption | ] | ].
  - exact (HQ standard DEFAULT_CONFIG rhbh Ht Hl).
  - apply (HD 12 5 (-1) (of_Z 3) rhfh)%Z; lia.
Defined.

(** X10. Glide adds distance.  Over exact arithmetic, one more unit of glide
    never decreases [estimatedDistance], whatever the config, and never
    decreases [flightLength] when [maxDistance] is not zero and
    [pixelsPerFoot] is not negative.  In doubles both hold on the default
    canvas for all integer speeds 1..15 and glides 1..7. *)
Theorem glide_monotonicity :
  (forall (fn : FlightNumbers Q) (config : CanvasConfig Q),
      estimatedDistance fn config <= estimatedDistance (oneMoreGlide fn) config)%Q
  /\ (forall (fn : FlightNumbers Q) (config : CanvasConfig Q),
      ~ maxDistance config == 0 -> 0 <= pixelsPerFoot config ->
      flightLength fn config <= flightLength (oneMoreGlide fn) config)%Q
  /\ (forall (s g : Z) (t f : float),
      (1 <= s <= 15)%Z -> (1 <= g <= 7)%Z ->
      let fn := disc s g t f in
      leb (estimatedDistance fn DEFAULT_CONFIG)
          (estimatedDistance (oneMoreGlide fn) DEFAULT_CONFIG) = true
      /\ leb (flightLength fn DEFAULT_CONFIG)
             (flightLength (oneMoreGlide fn) DEFAULT_CONFIG) = true).
Proof.
  split; [ | split].
  - apply estimatedDistance_glide_monotone.
  - intros fn config _. apply flightLength_glide_monotone.
  - intros s g t f Hs Hg. now apply glide_monotone_at.
Qed.

(** The standard disc on the default canvas, over both arithmetics. *)
Lemma glide_monotonicity_witness :
  let standard : FlightNumbers Q := standardFlightNumbers in
  ((~ maxDistance (DEFAULT_CONFIG : CanvasConfig Q) == 0
    /\ 0 <= pixelsPerFoot (DEFAULT_CONFIG : CanvasConfig Q))
   /\ flightLength standard DEFAULT_CONFIG
      <= flightLength (oneMoreGlide standard) DEFAULT_CONFIG)%Q
  /\ leb (flightLength (disc 12 5 (of_Z (-1)) (of_Z 3)) DEFAULT_CONFIG)
         (flightLength (oneMoreGlide (disc 12 5 (of_Z (-1)) (of_Z 3))) DEFAULT_CONFIG) = true.
Proof.
  intros standard.
  destruct glide_monotonicity as [_ [HQ HD]].
  assert (~ (maxDistance (DEFAULT_CONFIG : CanvasConfig Q) == 0)%Q) as Hnz
    by (intros E; discriminate E).
  assert ((0 <= pixelsPerFoot (DEFAULT_CONFIG : CanvasConfig Q))%Q) as Hp
    by (intros E; discriminate E).
  split; [split; [split; assumption | ] | ].
  - exact (HQ standard DEFAULT_CONFIG Hnz Hp).
  - apply (HD 12 5 (of_Z (-1)) (of_Z 3))%Z; lia.
Defined.




